(** * The AI analysis pipeline of [utils/aiProcessor.js]

    A shallow embedding of the exported entry point [analyzeWithAI], the three
    provider adapters behind it, the prompt table and the result structurer,
    followed by the properties the specification states about them.

    JavaScript strings are sequences of UTF-16 code units, values are those a
    JSON document can hold (plus the few built-in objects a property lookup
    can reach), exceptions are an explicit result type and the effects of the
    module (clock reads, HTTP requests, log lines) are recorded in a trace. *)

From Stdlib Require Import ZArith NArith QArith Lia DecimalString.
From stdpp Require Import base list gmap strings.

Set Warnings "-register-all,-abstract-large-number".

Local Open Scope string_scope.
Local Open Scope list_scope.

(* ===================================================================== *)
(** ** Strings *)
(* ===================================================================== *)

(** A JavaScript string: its UTF-16 code units, so that [length] is the
    [.length] of the source. *)
Definition jsstring := list N.

(** A source literal. All literals of the module are ASCII. *)
Definition lit (s : string) : jsstring :=
  List.map Ascii.N_of_ascii (String.list_ascii_of_string s).

(** The line feed written [\n] in the source. *)
Definition LF : N := 10%N.

Fixpoint str_eqb (a b : jsstring) : bool :=
  match a, b with
  | [], [] => true
  | x :: a', y :: b' => N.eqb x y && str_eqb a' b'
  | _, _ => false
  end.

(** WhiteSpace and LineTerminator code points of ECMAScript, the ones
    [String.prototype.trim] strips. *)
Definition isWhiteSpace (c : N) : bool :=
  (N.eqb c 0x09 || N.eqb c 0x0A || N.eqb c 0x0B || N.eqb c 0x0C ||
   N.eqb c 0x0D || N.eqb c 0x20 || N.eqb c 0xA0 || N.eqb c 0x1680 ||
   (N.leb 0x2000 c && N.leb c 0x200A) ||
   N.eqb c 0x2028 || N.eqb c 0x2029 || N.eqb c 0x202F || N.eqb c 0x205F ||
   N.eqb c 0x3000 || N.eqb c 0xFEFF)%N.

Fixpoint trimStart (s : jsstring) : jsstring :=
  match s with
  | c :: r => if isWhiteSpace c then trimStart r else s
  | [] => []
  end.

Definition trimEnd (s : jsstring) : jsstring := rev (trimStart (rev s)).

(** [s.trim()] *)
Definition trim (s : jsstring) : jsstring := trimEnd (trimStart s).

(** [s.split(sep)] for a separator of one code unit: never empty, the empty
    string splits into one empty piece. *)
Fixpoint split (sep : N) (s : jsstring) : list jsstring :=
  match s with
  | [] => [[]]
  | c :: r =>
      if N.eqb c sep then [] :: split sep r
      else match split sep r with
           | piece :: pieces => (c :: piece) :: pieces
           | [] => [[c]]
           end
  end.

Fixpoint startsWith (s prefix : jsstring) : bool :=
  match prefix, s with
  | [], _ => true
  | p :: prefix', c :: s' => N.eqb p c && startsWith s' prefix'
  | _ :: _, [] => false
  end.

(** [s.includes(needle)] *)
Fixpoint includes (s needle : jsstring) : bool :=
  startsWith s needle ||
  match s with
  | [] => false
  | _ :: r => includes r needle
  end.

(** [s.substring(a, b)]: both ends are clamped to the length and swapped
    when out of order. *)
Definition substring (s : jsstring) (a b : nat) : jsstring :=
  let a' := Nat.min a (length s) in
  let b' := Nat.min b (length s) in
  take (Nat.max a' b' - Nat.min a' b') (drop (Nat.min a' b') s).

(** Decimal rendering of an integer-valued number. *)
Definition decimal (z : Z) : jsstring := lit (NilZero.string_of_int (Z.to_int z)).

(* ===================================================================== *)
(** ** Values and exceptions *)
(* ===================================================================== *)

(** The values the module handles: what [JSON.parse] can produce, [NaN]
    (from arithmetic on [undefined]) and the built-in function objects that
    a lookup on an object literal reaches through [Object.prototype].
    Numbers are integer valued and in the range JavaScript prints in plain
    decimal; the module only tests them for truthiness, adds token counts
    and interpolates them into messages. *)
Inductive JsVal :=
| VUndefined
| VNull
| VBool (b : bool)
| VNum (n : Z)
| VNaN
| VStr (s : jsstring)
| VArr (items : list JsVal)
| VObj (props : list (jsstring * JsVal))
| VBuiltin (name : jsstring).

(** The rejection value of [axios.post]: [message], [code] and, when the
    server answered, [response.status] and [response.data]. *)
Record AxiosFailure := {
  ax_message : jsstring;
  ax_code : option jsstring;
  ax_response : option (Z * JsVal)
}.

(** What a [throw] or a rejected promise carries. *)
Inductive Thrown :=
| Error (message : jsstring)
| TypeError (message : jsstring)
| AxiosError (failure : AxiosFailure).

Inductive Result (A : Type) :=
| Ok (a : A)
| Throw (e : Thrown).
Arguments Ok {A} a.
Arguments Throw {A} e.

(** [error.message] *)
Definition message_of (e : Thrown) : jsstring :=
  match e with
  | Error m | TypeError m => m
  | AxiosError f => ax_message f
  end.

(** ToBoolean *)
Definition truthy (v : JsVal) : bool :=
  match v with
  | VUndefined | VNull | VNaN => false
  | VBool b => b
  | VNum n => negb (Z.eqb n 0)
  | VStr s => match s with [] => false | _ => true end
  | VArr _ | VObj _ | VBuiltin _ => true
  end.

(** [a || b] *)
Definition js_or (a b : JsVal) : JsVal := if truthy a then a else b.

Fixpoint own (props : list (jsstring * JsVal)) (k : jsstring) : option JsVal :=
  match props with
  | [] => None
  | (k', v) :: rest => if str_eqb k' k then Some v else own rest k
  end.

Definition cannot_convert : Thrown :=
  TypeError (lit "Cannot convert object to primitive value").

(** ToString, as a template literal or [+] with a string applies it. An
    array joins its elements with commas, [null] and [undefined] elements
    rendering empty. A parsed object has no callable property of its own, so
    one with an own [toString] cannot be converted and any other renders
    through [Object.prototype.toString]. A number renders in plain digits,
    which is what JavaScript prints for the integers below 10^21; the
    exponent form it uses from there on is outside the values modelled. *)
Fixpoint ToString (v : JsVal) : Result jsstring :=
  match v with
  | VUndefined => Ok (lit "undefined")
  | VNull => Ok (lit "null")
  | VBool true => Ok (lit "true")
  | VBool false => Ok (lit "false")
  | VNum n => Ok (decimal n)
  | VNaN => Ok (lit "NaN")
  | VStr s => Ok s
  | VArr items =>
      (fix join (l : list JsVal) : Result jsstring :=
         match l with
         | [] => Ok []
         | x :: r =>
             match (match x with
                    | VUndefined | VNull => Ok []
                    | _ => ToString x
                    end) with
             | Throw e => Throw e
             | Ok sx =>
                 match r with
                 | [] => Ok sx
                 | _ :: _ =>
                     match join r with
                     | Throw e => Throw e
                     | Ok sr => Ok (sx ++ lit "," ++ sr)
                     end
                 end
             end
         end) items
  | VObj props =>
      match own props (lit "toString") with
      | Some _ => Throw cannot_convert
      | None => Ok (lit "[object Object]")
      end
  | VBuiltin name => Ok (lit "function " ++ name ++ lit "() { [native code] }")
  end.

(** The property names the module reads from parsed data. None of them is
    defined on [Object.prototype], [Array.prototype], [String.prototype],
    [Number.prototype], [Boolean.prototype] or [Function.prototype], so a
    lookup resolves to an own property, an element or a code unit. *)
Inductive Key :=
| K_content | K_text | K_choices | K_message | K_candidates | K_parts
| K_usage | K_input_tokens | K_output_tokens | K_total_tokens
| K_usageMetadata | K_totalTokenCount | K_error | K_0.

Definition key_name (k : Key) : jsstring :=
  lit match k with
      | K_content => "content" | K_text => "text" | K_choices => "choices"
      | K_message => "message" | K_candidates => "candidates"
      | K_parts => "parts" | K_usage => "usage"
      | K_input_tokens => "input_tokens" | K_output_tokens => "output_tokens"
      | K_total_tokens => "total_tokens" | K_usageMetadata => "usageMetadata"
      | K_totalTokenCount => "totalTokenCount" | K_error => "error"
      | K_0 => "0"
      end.

Definition nullish (v : JsVal) : bool :=
  match v with
  | VUndefined | VNull => true
  | _ => false
  end.

(** [v[k]] on a value that is neither [null] nor [undefined]. *)
Definition member (v : JsVal) (k : Key) : JsVal :=
  match v with
  | VObj props => default VUndefined (own props (key_name k))
  | VArr items =>
      match k, items with
      | K_0, x :: _ => x
      | _, _ => VUndefined
      end
  | VStr s =>
      match k, s with
      | K_0, c :: _ => VStr [c]
      | _, _ => VUndefined
      end
  | _ => VUndefined
  end.

(** [v.k] and [v[0]] *)
Definition get (v : JsVal) (k : Key) : Result JsVal :=
  match v with
  | VUndefined =>
      Throw (TypeError (lit "Cannot read properties of undefined (reading '"
                          ++ key_name k ++ lit "')"))
  | VNull =>
      Throw (TypeError (lit "Cannot read properties of null (reading '"
                          ++ key_name k ++ lit "')"))
  | _ => Ok (member v k)
  end.

(** [v?.k] and [v?.[0]] *)
Definition opt_get (v : JsVal) (k : Key) : JsVal :=
  if nullish v then VUndefined else member v k.

(** ToPrimitive without a hint: for the objects at hand the outcome is that
    of ToString. *)
Definition ToPrimitive (v : JsVal) : Result JsVal :=
  match v with
  | VArr _ | VObj _ | VBuiltin _ =>
      match ToString v with
      | Ok s => Ok (VStr s)
      | Throw e => Throw e
      end
  | _ => Ok v
  end.

(** ToNumber of a primitive that is not a string; [None] is [NaN]. *)
Definition ToNumber (v : JsVal) : option Z :=
  match v with
  | VNull => Some 0%Z
  | VBool true => Some 1%Z
  | VBool false => Some 0%Z
  | VNum n => Some n
  | _ => None
  end.

(** [a + b]. Numbers add exactly, as JavaScript does while the operands
    and the sum are safe integers (below 2^53 in magnitude); the rounding
    of larger sums is outside the values modelled. *)
Definition js_add (a b : JsVal) : Result JsVal :=
  match ToPrimitive a with
  | Throw e => Throw e
  | Ok pa =>
      match ToPrimitive b with
      | Throw e => Throw e
      | Ok pb =>
          match pa, pb with
          | VStr sa, _ =>
              match ToString pb with
              | Ok sb => Ok (VStr (sa ++ sb))
              | Throw e => Throw e
              end
          | _, VStr sb =>
              match ToString pa with
              | Ok sa => Ok (VStr (sa ++ sb))
              | Throw e => Throw e
              end
          | _, _ =>
              match ToNumber pa, ToNumber pb with
              | Some x, Some y => Ok (VNum (x + y))
              | _, _ => Ok VNaN
              end
          end
      end
  end.

(* ===================================================================== *)
(** ** The prompt table *)
(* ===================================================================== *)

(** A template literal spanning several source lines: a line feed, the
    lines, a line feed and the indentation of the closing backquote. *)
Definition block (lines : list string) : jsstring :=
  LF :: concat (List.map (fun l => lit l ++ [LF]) lines) ++ lit "  ".

Definition security_review_prompt : jsstring := block [
  "    Please perform a comprehensive cybersecurity review of this document. Focus on:";
  "    1. Security vulnerabilities or weaknesses mentioned";
  "    2. Compliance with security standards (ISO 27001, NIST, etc.)";
  "    3. Risk assessment and mitigation strategies";
  "    4. Access control and authentication mechanisms";
  "    5. Data protection and privacy considerations";
  "    6. Incident response procedures";
  "    7. Security awareness and training requirements";
  "    ";
  "    Provide specific recommendations for improvement and highlight any critical security gaps."
].

Definition policy_analysis_prompt : jsstring := block [
  "    Analyze this document as a cybersecurity policy or procedure. Evaluate:";
  "    1. Completeness and clarity of policy statements";
  "    2. Alignment with industry best practices";
  "    3. Enforceability and measurability";
  "    4. Coverage of key security domains";
  "    5. Roles and responsibilities definition";
  "    6. Compliance and audit requirements";
  "    7. Update and review mechanisms";
  "    ";
  "    Suggest improvements and identify missing policy elements."
].

Definition compliance_check_prompt : jsstring := block [
  "    Review this document for compliance with major cybersecurity frameworks and regulations:";
  "    1. GDPR/CCPA privacy requirements";
  "    2. SOX financial controls";
  "    3. HIPAA healthcare security (if applicable)";
  "    4. PCI DSS payment security (if applicable)";
  "    5. ISO 27001/27002 standards";
  "    6. NIST Cybersecurity Framework";
  "    7. Industry-specific regulations";
  "    ";
  "    Identify compliance gaps and provide remediation recommendations."
].

Definition general_prompt : jsstring := block [
  "    Analyze this document from a cybersecurity perspective and provide:";
  "    1. Summary of key security-related content";
  "    2. Identification of security strengths and weaknesses";
  "    3. Risk areas that need attention";
  "    4. Best practices recommendations";
  "    5. Implementation guidance";
  "    6. Priority areas for improvement";
  "    ";
  "    Focus on practical, actionable insights that can improve the organization's security posture."
].

(** The own properties of the object literal [ANALYSIS_PROMPTS]. *)
Definition ANALYSIS_PROMPTS : list (jsstring * JsVal) := [
  (lit "security-review", VStr security_review_prompt);
  (lit "policy-analysis", VStr policy_analysis_prompt);
  (lit "compliance-check", VStr compliance_check_prompt);
  (lit "general", VStr general_prompt)
].

(** What an object literal inherits: the properties of [Object.prototype].
    [constructor] is the function [Object], [__proto__] reads back the
    prototype itself (a plain object), the others are methods named as
    their key. *)
Definition Object_prototype (k : jsstring) : JsVal :=
  if str_eqb k (lit "constructor") then VBuiltin (lit "Object")
  else if str_eqb k (lit "__proto__") then VObj []
  else if existsb (str_eqb k)
            (List.map lit ["toString"; "toLocaleString"; "valueOf";
                           "hasOwnProperty"; "isPrototypeOf";
                           "propertyIsEnumerable"; "__defineGetter__";
                           "__defineSetter__"; "__lookupGetter__";
                           "__lookupSetter__"])
       then VBuiltin k
  else VUndefined.

(** [ANALYSIS_PROMPTS[k]]: an own property, else the prototype chain. *)
Definition ANALYSIS_PROMPTS_at (k : jsstring) : JsVal :=
  match own ANALYSIS_PROMPTS k with
  | Some v => v
  | None => Object_prototype k
  end.

(** An argument that is a string or [null]. *)
Definition nullable (s : option jsstring) : JsVal :=
  match s with
  | Some s => VStr s
  | None => VNull
  end.

(** [customPrompt || ANALYSIS_PROMPTS[analysisType] || ANALYSIS_PROMPTS['general']],
    the first statement of each adapter. *)
Definition prompt_of (analysisType : jsstring) (customPrompt : option jsstring)
  : JsVal :=
  js_or (js_or (nullable customPrompt) (ANALYSIS_PROMPTS_at analysisType))
        (ANALYSIS_PROMPTS_at (lit "general")).

(** [`${prompt}\n\nDocument content:\n${content.substring(0, 50000)}`] *)
Definition user_text (prompt : JsVal) (content : jsstring) : Result jsstring :=
  match ToString prompt with
  | Ok p =>
      Ok (p ++ [LF; LF] ++ lit "Document content:" ++ [LF]
            ++ substring content 0 50000)
  | Throw e => Throw e
  end.

(* ===================================================================== *)
(** ** Requests, results and effects *)
(* ===================================================================== *)

Record Message := { role : jsstring; content : jsstring }.

(** The three wire formats. A Gemini body lists, for each entry of
    [contents], the [text] of each of its [parts]. *)
Inductive Body :=
| ClaudeBody (model : jsstring) (max_tokens : Z) (messages : list Message)
| OpenAIBody (model : jsstring) (messages : list Message) (max_tokens : Z)
             (temperature : Q)
| GeminiBody (contents : list (list jsstring)) (temperature : Q)
             (maxOutputTokens : Z).

(** One call of [axios.post(url, body, {headers, timeout})]. *)
Record Request := {
  url : jsstring;
  body : Body;
  headers : list (string * JsVal);
  timeout : Z
}.

(** The text that carries the instruction and the document. *)
Definition payload_text (req : Request) : list jsstring :=
  match body req with
  | ClaudeBody _ _ messages =>
      List.map content (List.filter (fun m => str_eqb (role m) (lit "user")) messages)
  | OpenAIBody _ messages _ _ =>
      List.map content (List.filter (fun m => str_eqb (role m) (lit "user")) messages)
  | GeminiBody contents _ _ => concat contents
  end.

(** What an adapter returns. *)
Record ProviderResult := {
  provider : jsstring;
  analysis : JsVal;
  model : jsstring;
  tokensUsed : JsVal;
  status : jsstring
}.

Inductive SectionName :=
| S_summary | S_findings | S_recommendations | S_risks | S_compliance.

Record Sections := {
  summary : JsVal;
  findings : JsVal;
  recommendations : JsVal;
  risks : JsVal;
  compliance : JsVal
}.

(** [result.metadata]; [timestamp] holds the instant whose ISO-8601
    rendering the source stores. *)
Record Metadata := {
  analysisType : jsstring;
  contentLength : nat;
  processingTime : jsstring;
  timestamp : Z
}.

(** The adapter's result with the two fields [analyzeWithAI] adds. *)
Record AnalysisResult := {
  result : ProviderResult;
  metadata : Metadata;
  structuredAnalysis : Sections
}.

Inductive Level := LvError | LvWarn | LvInfo.

Inductive Detail :=
| DNone
| DValue (v : JsVal)
| DThrown (e : Thrown).

(** The observable effects of the module, in the order they happen. *)
Inductive Event :=
| EvClock (t : Z)
| EvPost (req : Request)
| EvLog (lvl : Level) (msg : jsstring) (detail : Detail).

(** How many times the clock was read, and what happened so far. *)
Record State := { reads : nat; trace : list Event }.

Definition M (A : Type) : Type := State -> Result A * State.

Definition ret {A} (a : A) : M A := fun st => (Ok a, st).

Definition bind {A B} (m : M A) (k : A -> M B) : M B :=
  fun st =>
    match m st with
    | (Ok a, st') => k a st'
    | (Throw e, st') => (Throw e, st')
    end.

Definition throw {A} (e : Thrown) : M A := fun st => (Throw e, st).

Definition lift {A} (r : Result A) : M A := fun st => (r, st).

(** [try { body } catch (error) { handler }] *)
Definition try_catch {A} (body : M A) (handler : Thrown -> M A) : M A :=
  fun st =>
    match body st with
    | (Ok a, st') => (Ok a, st')
    | (Throw e, st') => handler e st'
    end.

Definition when (b : bool) (m : M unit) : M unit := if b then m else ret tt.

Definition emit (e : Event) : M unit :=
  fun st => (Ok tt, {| reads := reads st; trace := trace st ++ [e] |}).

Declare Scope js_scope.
Delimit Scope js_scope with js.
Notation "'let*' x := m 'in' k" := (bind m (fun x => k))
  (at level 10, x name, m at level 100, k at level 200) : js_scope.
Notation "'do' m 'then' k" := (bind m (fun _ => k))
  (at level 10, m at level 100, k at level 200) : js_scope.
Local Open Scope js_scope.

(** [logger.error], [logger.warn], [logger.info] *)
Definition logger (lvl : Level) (msg : jsstring) (detail : Detail) : M unit :=
  emit (EvLog lvl msg detail).

(** [error.response?.data] *)
Definition response_data (e : Thrown) : JsVal :=
  match e with
  | AxiosError f =>
      match ax_response f with
      | Some (_, data) => data
      | None => VUndefined
      end
  | _ => VUndefined
  end.

(** [error.response?.data?.error?.message || error.message] *)
Definition service_message (e : Thrown) : JsVal :=
  js_or (opt_get (opt_get (response_data e) K_error) K_message)
        (VStr (message_of e)).

(** The [catch] block shared, up to the service name, by the adapters. *)
Definition service_failure {A} (api service : string) (error : Thrown) : M A :=
  do logger LvError (lit api ++ lit " API error:")
       (DValue (js_or (response_data error) (VStr (message_of error)))) then
  let* m := lift (ToString (service_message error)) in
  throw (Error (lit service ++ lit " service error: " ++ m)).

(* ===================================================================== *)
(** ** The result structurer *)
(* ===================================================================== *)

Definition sections_get (s : Sections) (k : SectionName) : JsVal :=
  match k with
  | S_summary => summary s
  | S_findings => findings s
  | S_recommendations => recommendations s
  | S_risks => risks s
  | S_compliance => compliance s
  end.

Definition sections_set (s : Sections) (k : SectionName) (v : JsVal) : Sections :=
  match k with
  | S_summary =>
      {| summary := v; findings := findings s;
         recommendations := recommendations s; risks := risks s;
         compliance := compliance s |}
  | S_findings =>
      {| summary := summary s; findings := v;
         recommendations := recommendations s; risks := risks s;
         compliance := compliance s |}
  | S_recommendations =>
      {| summary := summary s; findings := findings s;
         recommendations := v; risks := risks s;
         compliance := compliance s |}
  | S_risks =>
      {| summary := summary s; findings := findings s;
         recommendations := recommendations s; risks := v;
         compliance := compliance s |}
  | S_compliance =>
      {| summary := summary s; findings := findings s;
         recommendations := recommendations s; risks := risks s;
         compliance := v |}
  end.

(** The object literal the scan starts from, and the shape of the one the
    [catch] block returns. *)
Definition sections_of (summary_text : JsVal) : Sections :=
  {| summary := summary_text; findings := VArr []; recommendations := VArr [];
     risks := VArr []; compliance := VArr [] |}.

(** [line => line.trim()] as a filter: the trimmed line is not empty. *)
Definition nonblank (line : jsstring) : bool :=
  truthy (VStr (trim line)).

(** [analysisText.split('\n')]: only a string has the method. *)
Definition split_text (analysisText : JsVal) : Result (list jsstring) :=
  match analysisText with
  | VStr s => Ok (split LF s)
  | VUndefined =>
      Throw (TypeError (lit "Cannot read properties of undefined (reading 'split')"))
  | VNull =>
      Throw (TypeError (lit "Cannot read properties of null (reading 'split')"))
  | _ => Throw (TypeError (lit "analysisText.split is not a function"))
  end.

(** The body of the [forEach] callback that turns a section into lines. *)
Definition convert (sections : Sections) (section : SectionName)
  : Result Sections :=
  if truthy (sections_get sections section) then
    match sections_get sections section with
    | VStr s =>
        Ok (sections_set sections section
              (VArr (List.map (fun item => VStr (trim item))
                       (List.filter nonblank (split LF s)))))
    | _ => Throw (TypeError (lit "sections[section].split is not a function"))
    end
  else Ok sections.

(** [names.forEach(convert)]: the first exception ends the iteration. *)
Fixpoint forEach (names : list SectionName) (sections : Sections)
  : Result Sections :=
  match names with
  | [] => Ok sections
  | section :: rest =>
      match convert sections section with
      | Ok sections' => forEach rest sections'
      | Throw e => Throw e
      end
  end.

Section Host.

(** [String.prototype.toLowerCase]: the Unicode case mapping of the engine,
    left abstract. *)
Variable toLowerCase : jsstring -> jsstring.

(** [process.env] *)
Variable env : gmap string jsstring.

(** The successive readings of the system clock, in milliseconds. *)
Variable clock : nat -> Z.

(** What the network answers to a request: the [data] of the response, or
    the rejection of the promise. *)
Variable transport : Request -> JsVal + AxiosFailure.

Definition process_env (name : string) : JsVal :=
  match env !! name with
  | Some v => VStr v
  | None => VUndefined
  end.

(** [`${process.env.NAME}`] *)
Definition env_text (name : string) : jsstring :=
  match env !! name with
  | Some v => v
  | None => lit "undefined"
  end.

(** [Date.now()] and [new Date()] *)
Definition Date_now : M Z :=
  fun st =>
    let t := clock (reads st) in
    (Ok t, {| reads := S (reads st); trace := trace st ++ [EvClock t] |}).

(** [await axios.post(...)]; yields [response.data]. *)
Definition axios_post (req : Request) : M JsVal :=
  fun st =>
    (match transport req with
     | inl data => Ok data
     | inr failure => Throw (AxiosError failure)
     end,
     {| reads := reads st; trace := trace st ++ [EvPost req] |}).

(** One step of the line scan: the pair is [currentSection] and
    [currentContent]. *)
Definition scan_step (acc : SectionName * jsstring) (line : jsstring)
  : SectionName * jsstring :=
  let '(currentSection, currentContent) := acc in
  let lowerLine := toLowerCase line in
  let currentSection :=
    if includes lowerLine (lit "summary") || includes lowerLine (lit "overview")
    then S_compliance
    else currentSection in
  (currentSection, currentContent ++ line ++ [LF]).

Definition scan (lines : list jsstring) : SectionName * jsstring :=
  fold_left scan_step lines (S_summary, []).

(** The sections after the scan and the flush of the buffer, before the
    conversion to lines. *)
Definition flushed (lines : list jsstring) : Result Sections :=
  let sections := sections_of (VStr []) in
  let '(currentSection, currentContent) := scan lines in
  if truthy (VStr currentContent) then
    match js_add (sections_get sections currentSection) (VStr currentContent) with
    | Ok v => Ok (sections_set sections currentSection v)
    | Throw e => Throw e
    end
  else Ok sections.

Definition structureAnalysis (analysisText : JsVal) (analysisType : jsstring)
  : M Sections :=
  try_catch
    (let* pieces := lift (split_text analysisText) in
     let lines := List.filter nonblank pieces in
     let* sections := lift (flushed lines) in
     lift (forEach [S_findings; S_recommendations; S_risks; S_compliance]
             sections))
    (fun error =>
       do logger LvWarn (lit "Failed to structure analysis output:")
            (DThrown error) then
       ret (sections_of analysisText)).

(* ===================================================================== *)
(** ** The provider adapters *)
(* ===================================================================== *)

Definition claude_request (text : jsstring) : Request :=
  {| url := lit "https://api.anthropic.com/v1/messages";
     body := ClaudeBody (lit "claude-3-sonnet-20240229") 4000
               [{| role := lit "user"; content := text |}];
     headers :=
       [("Authorization", VStr (lit "Bearer " ++ env_text "CLAUDE_API_KEY"));
        ("Content-Type", VStr (lit "application/json"));
        ("x-api-key", process_env "CLAUDE_API_KEY")];
     timeout := 60000 |}.

Definition analyzeWithClaude (content analysisType : jsstring)
    (customPrompt : option jsstring) : M ProviderResult :=
  try_catch
    (let prompt := prompt_of analysisType customPrompt in
     let* text := lift (user_text prompt content) in
     let* data := axios_post (claude_request text) in
     let* blocks := lift (get data K_content) in
     let* first := lift (get blocks K_0) in
     let* text := lift (get first K_text) in
     let* usage := lift (get data K_usage) in
     let* tokens := lift (js_add (opt_get usage K_input_tokens)
                                 (opt_get usage K_output_tokens)) in
     ret {| provider := lit "claude";
            analysis := text;
            model := lit "claude-3-sonnet";
            tokensUsed := js_or tokens (VNum 0);
            status := lit "success" |})
    (service_failure "Claude" "Claude AI").

Definition openai_request (text : jsstring) : Request :=
  {| url := lit "https://api.openai.com/v1/chat/completions";
     body := OpenAIBody (lit "gpt-4")
               [{| role := lit "system";
                   content := lit "You are a cybersecurity expert specializing in document analysis and security assessments." |};
                {| role := lit "user"; content := text |}]
               4000 (Qmake 3 10);
     headers :=
       [("Authorization", VStr (lit "Bearer " ++ env_text "OPENAI_API_KEY"));
        ("Content-Type", VStr (lit "application/json"))];
     timeout := 60000 |}.

Definition analyzeWithOpenAI (content analysisType : jsstring)
    (customPrompt : option jsstring) : M ProviderResult :=
  try_catch
    (let prompt := prompt_of analysisType customPrompt in
     let* text := lift (user_text prompt content) in
     let* data := axios_post (openai_request text) in
     let* choices := lift (get data K_choices) in
     let* first := lift (get choices K_0) in
     let* message := lift (get first K_message) in
     let* text := lift (get message K_content) in
     let* usage := lift (get data K_usage) in
     ret {| provider := lit "openai";
            analysis := text;
            model := lit "gpt-4";
            tokensUsed := js_or (opt_get usage K_total_tokens) (VNum 0);
            status := lit "success" |})
    (service_failure "OpenAI" "OpenAI").

Definition gemini_request (text : jsstring) : Request :=
  {| url := lit "https://generativelanguage.googleapis.com/v1beta/models/gemini-pro:generateContent?key="
              ++ env_text "GEMINI_API_KEY";
     body := GeminiBody [[text]] (Qmake 3 10) 4000;
     headers := [("Content-Type", VStr (lit "application/json"))];
     timeout := 60000 |}.

Definition analyzeWithGemini (content analysisType : jsstring)
    (customPrompt : option jsstring) : M ProviderResult :=
  try_catch
    (let prompt := prompt_of analysisType customPrompt in
     let* text := lift (user_text prompt content) in
     let* data := axios_post (gemini_request text) in
     let* candidates := lift (get data K_candidates) in
     let analysisText :=
       opt_get (opt_get (opt_get (opt_get (opt_get candidates K_0) K_content)
                           K_parts) K_0) K_text in
     do when (negb (truthy analysisText))
          (throw (Error (lit "No analysis text received from Gemini"))) then
     let* usage := lift (get data K_usageMetadata) in
     ret {| provider := lit "gemini";
            analysis := analysisText;
            model := lit "gemini-pro";
            tokensUsed := js_or (opt_get usage K_totalTokenCount) (VNum 0);
            status := lit "success" |})
    (service_failure "Gemini" "Gemini").

(* ===================================================================== *)
(** ** The entry point *)
(* ===================================================================== *)

(** The two guards that open the [try] block of [analyzeWithAI]. *)
Definition validate (content : jsstring) : M unit :=
  do when (negb (truthy (VStr content)) || (length (trim content) =? 0)%nat)
       (throw (Error (lit "No content provided for analysis"))) then
  when (length content <? 50)%nat
    (throw (Error (lit "Content too short for meaningful analysis"))).

(** The [switch (provider.toLowerCase())] of [analyzeWithAI]. *)
Definition dispatch (content provider analysisType : jsstring)
    (customPrompt : option jsstring) : M ProviderResult :=
  let selected := toLowerCase provider in
  if str_eqb selected (lit "claude") then
    do when (negb (truthy (process_env "CLAUDE_API_KEY")))
         (throw (Error (lit "Claude API key not configured"))) then
    analyzeWithClaude content analysisType customPrompt
  else if str_eqb selected (lit "openai") then
    do when (negb (truthy (process_env "OPENAI_API_KEY")))
         (throw (Error (lit "OpenAI API key not configured"))) then
    analyzeWithOpenAI content analysisType customPrompt
  else if str_eqb selected (lit "gemini") then
    do when (negb (truthy (process_env "GEMINI_API_KEY")))
         (throw (Error (lit "Gemini API key not configured"))) then
    analyzeWithGemini content analysisType customPrompt
  else throw (Error (lit "Unsupported AI provider: " ++ provider)).

(** What follows the [switch]: the processing time, the metadata, the
    structured analysis and the log line. *)
Definition complete (startTime : Z) (content provider analysisType : jsstring)
    (result : ProviderResult) : M AnalysisResult :=
  let* now := Date_now in
  let processingTime := (now - startTime)%Z in
  let* stamp := Date_now in
  let metadata :=
    {| analysisType := analysisType;
       contentLength := length content;
       processingTime := decimal processingTime ++ lit "ms";
       timestamp := stamp |} in
  let* structured := structureAnalysis (analysis result) analysisType in
  do logger LvInfo
       (lit "AI analysis completed: " ++ provider ++ lit " ("
          ++ decimal processingTime ++ lit "ms)") DNone then
  ret {| result := result; metadata := metadata;
         structuredAnalysis := structured |}.

(** [analysisType] and [customPrompt] are [None] when the caller leaves them
    out; the defaults are ['general'] and [null]. *)
Definition analyzeWithAI (content provider : jsstring)
    (analysisType customPrompt : option jsstring) : M AnalysisResult :=
  let analysisType := default (lit "general") analysisType in
  let* startTime := Date_now in
  try_catch
    (do validate content then
     let* result := dispatch content provider analysisType customPrompt in
     complete startTime content provider analysisType result)
    (fun error =>
       do logger LvError (lit "AI analysis failed (" ++ provider ++ lit "):")
            (DThrown error) then
       throw error).

End Host.

(* ===================================================================== *)
(** ** Vocabulary for the statements *)
(* ===================================================================== *)

(** The providers the [switch] of [analyzeWithAI] knows, with the label of
    each case, the credential it tests, the two names its messages use and
    the request it sends. *)
Inductive ProviderId := Claude | OpenAI | Gemini.

Definition selector (p : ProviderId) : jsstring :=
  lit match p with Claude => "claude" | OpenAI => "openai" | Gemini => "gemini" end.

Definition credential (p : ProviderId) : string :=
  match p with
  | Claude => "CLAUDE_API_KEY"
  | OpenAI => "OPENAI_API_KEY"
  | Gemini => "GEMINI_API_KEY"
  end.

Definition api_name (p : ProviderId) : string :=
  match p with Claude => "Claude" | OpenAI => "OpenAI" | Gemini => "Gemini" end.

Definition service_name (p : ProviderId) : string :=
  match p with Claude => "Claude AI" | OpenAI => "OpenAI" | Gemini => "Gemini" end.

Definition request_of (env : gmap string jsstring) (p : ProviderId)
  : jsstring -> Request :=
  match p with
  | Claude => claude_request env
  | OpenAI => openai_request env
  | Gemini => gemini_request env
  end.

Definition adapter (env : gmap string jsstring)
    (transport : Request -> JsVal + AxiosFailure) (p : ProviderId)
  : jsstring -> jsstring -> option jsstring -> M ProviderResult :=
  match p with
  | Claude => analyzeWithClaude env transport
  | OpenAI => analyzeWithOpenAI env transport
  | Gemini => analyzeWithGemini env transport
  end.

(** The trigger of the scan: the lowercase form of the line contains one of
    the two words. *)
Definition heading (toLowerCase : jsstring -> jsstring) (line : jsstring)
  : bool :=
  includes (toLowerCase line) (lit "summary")
  || includes (toLowerCase line) (lit "overview").

(** The requests a trace records, in order. *)
Fixpoint posts (tr : list Event) : list Request :=
  match tr with
  | [] => []
  | EvPost req :: rest => req :: posts rest
  | _ :: rest => posts rest
  end.

(** The state of a run of [analyzeWithAI] once the start time is read. *)
Definition entered (clock : nat -> Z) (st : State) : State :=
  {| reads := S (reads st); trace := trace st ++ [EvClock (clock (reads st))] |}.

(** The outcome of the [catch] block of [analyzeWithAI] on an error raised
    in state [st]: the error is logged and rethrown as it is. *)
Definition failed (provider : jsstring) (e : Thrown) (st : State)
  : Result AnalysisResult * State :=
  (Throw e,
   {| reads := reads st;
      trace := trace st
                 ++ [EvLog LvError
                       (lit "AI analysis failed (" ++ provider ++ lit "):")
                       (DThrown e)] |}).

(** The kind of each effect, to read the order of a trace at a glance. *)
Inductive Kind := ClockRead | Post | LogLine.

Definition kind_of (e : Event) : Kind :=
  match e with
  | EvClock _ => ClockRead
  | EvPost _ => Post
  | EvLog _ _ _ => LogLine
  end.

(** The messages of the errors [analyzeWithAI] raises itself. *)
Definition no_content : Thrown := Error (lit "No content provided for analysis").
Definition too_short : Thrown := Error (lit "Content too short for meaningful analysis").
Definition not_configured (p : ProviderId) : Thrown :=
  Error (lit (api_name p) ++ lit " API key not configured").
Definition unsupported (provider : jsstring) : Thrown :=
  Error (lit "Unsupported AI provider: " ++ provider).
Definition service_error (p : ProviderId) (m : jsstring) : Thrown :=
  Error (lit (service_name p) ++ lit " service error: " ++ m).

(** The errors that can leave the [switch] of [analyzeWithAI]: its own
    and those an adapter surfaces. *)
Inductive dispatch_error (provider : jsstring) : Thrown -> Prop :=
| de_not_configured p : dispatch_error provider (not_configured p)
| de_unsupported : dispatch_error provider (unsupported provider)
| de_service p m : dispatch_error provider (service_error p m)
| de_convert : dispatch_error provider cannot_convert.


(** [toLowerCase] on strings of ASCII letters, for the concrete runs. *)
Definition asciiLower (s : jsstring) : jsstring :=
  List.map (fun c => if (N.leb 65 c && N.leb c 90)%N then (c + 32)%N else c) s.

(** A clock that ticks ten milliseconds between readings. *)
Definition sample_clock (k : nat) : Z := (1000 + 10 * Z.of_nat k)%Z.

Definition start : State := {| reads := 0; trace := [] |}.

(** A document long enough to pass validation. *)
Definition sample_content : jsstring :=
  lit "Access to production systems requires multi-factor authentication.".

Definition all_keys : gmap string jsstring :=
  <[ "CLAUDE_API_KEY" := lit "sk-c" ]>
  (<[ "OPENAI_API_KEY" := lit "sk-o" ]>
  (<[ "GEMINI_API_KEY" := lit "sk-g" ]> ∅)).

(** Text with a heading, the two lines separated by a line feed. *)
Definition sample_answer : jsstring :=
  lit "Summary: ok" ++ [LF] ++ lit "Finding: none".

(** A well-formed answer of the Claude API and one of the Gemini API with
    an empty candidate list. *)
Definition claude_answer : JsVal :=
  VObj [(lit "content", VArr [VObj [(lit "type", VStr (lit "text"));
                                    (lit "text", VStr sample_answer)]]);
        (lit "usage", VObj [(lit "input_tokens", VNum 120);
                            (lit "output_tokens", VNum 30)])].

Definition no_candidates : JsVal := VObj [(lit "candidates", VArr [])].

(** A well-formed answer of the Gemini API. *)
Definition gemini_answer : JsVal :=
  VObj [(lit "candidates",
         VArr [VObj [(lit "content",
                      VObj [(lit "parts",
                             VArr [VObj [(lit "text", VStr sample_answer)]])])]]);
        (lit "usageMetadata", VObj [(lit "totalTokenCount", VNum 42)])].

(** Network behaviours: an answer carrying [data], and a rejection with a
    status and a provider-supplied error message. *)
Definition answers (data : JsVal) : Request -> JsVal + AxiosFailure :=
  fun _ => inl data.

Definition rejects (status : Z) (reason : jsstring)
  : Request -> JsVal + AxiosFailure :=
  fun _ => inr {| ax_message := lit "Request failed with status code "
                                  ++ decimal status;
                  ax_code := Some (lit (if (status <? 500)%Z then "ERR_BAD_REQUEST"
                                    else "ERR_BAD_RESPONSE"));
                  ax_response :=
                    Some (status,
                          VObj [(lit "error",
                                 VObj [(lit "message", VStr reason)])]) |}.

(** A rejection whose body carries, as its error message, an object with
    a [toString] property of its own: [JSON.parse] makes no function, so
    the object cannot be converted to a string. *)
Definition rejects_unrenderable : Request -> JsVal + AxiosFailure :=
  fun _ => inr {| ax_message := lit "Request failed with status code 400";
                  ax_code := Some (lit "ERR_BAD_REQUEST");
                  ax_response :=
                    Some (400%Z,
                          VObj [(lit "error",
                                 VObj [(lit "message",
                                        VObj [(lit "toString", VNum 1)])])]) |}.

(** What the caller of [analyzeWithAI] gets for the sample document sent to
    Gemini with every credential configured, under a given network. *)
Definition gemini_run (transport : Request -> JsVal + AxiosFailure)
  : Result AnalysisResult :=
  fst (analyzeWithAI asciiLower all_keys sample_clock transport sample_content
         (lit "gemini") None None start).

(* ===================================================================== *)
(** ** The availability check *)
(* ===================================================================== *)

Section Availability.

Variable toLowerCase : jsstring -> jsstring.
Variable env : gmap string jsstring.

(** [checkServiceAvailability]: [!!process.env.NAME] for the provider the
    label names, [false] for any other label. Nothing in the [try] block
    raises on a string, and there is no effect. *)
Definition checkServiceAvailability (provider : jsstring) : bool :=
  let selected := toLowerCase provider in
  if str_eqb selected (lit "claude") then
    truthy (process_env env "CLAUDE_API_KEY")
  else if str_eqb selected (lit "openai") then
    truthy (process_env env "OPENAI_API_KEY")
  else if str_eqb selected (lit "gemini") then
    truthy (process_env env "GEMINI_API_KEY")
  else false.

End Availability.

(* ===================================================================== *)
(** ** The document processor *)
(* ===================================================================== *)

(** The class [[\x00-\x08\x0B\x0C\x0E-\x1F\x7F-\x9F]]. *)
Definition isControl (c : N) : bool :=
  (N.leb c 0x08 || N.eqb c 0x0B || N.eqb c 0x0C
   || (N.leb 0x0E c && N.leb c 0x1F) || (N.leb 0x7F c && N.leb c 0x9F))%N.

(** [s.replace(/\s+/g, ' ')]: every maximal run of whitespace becomes one
    space; [in_run] tells that the previous code unit was whitespace. The
    class [\s] is that of [isWhiteSpace]. *)
Fixpoint collapse_whitespace (in_run : bool) (s : jsstring) : jsstring :=
  match s with
  | [] => []
  | c :: r =>
      if isWhiteSpace c then
        if in_run then collapse_whitespace true r
        else 0x20%N :: collapse_whitespace true r
      else c :: collapse_whitespace false r
  end.

(** How many code units [\s*\n] consumes at the head of [s]: the star is
    greedy, so the match runs to the last line feed of the leading run of
    whitespace; [None] when that run has no line feed. *)
Fixpoint blank_run (s : jsstring) : option nat :=
  match s with
  | [] => None
  | c :: r =>
      if isWhiteSpace c then
        match blank_run r with
        | Some n => Some (S n)
        | None => if N.eqb c LF then Some 1 else None
        end
      else None
  end.

(** [s.replace(/\n\s*\n/g, '\n\n')]; [skip] counts the code units of the
    match being replaced that are still to be dropped. *)
Fixpoint squeeze_blank_lines (skip : nat) (s : jsstring) : jsstring :=
  match s with
  | [] => []
  | c :: r =>
      match skip with
      | S k => squeeze_blank_lines k r
      | O =>
          if N.eqb c LF then
            match blank_run r with
            | Some n => LF :: LF :: squeeze_blank_lines n r
            | None => c :: squeeze_blank_lines 0 r
            end
          else c :: squeeze_blank_lines 0 r
      end
  end.

(** [s.replace(/[\x00-\x08\x0B\x0C\x0E-\x1F\x7F-\x9F]/g, '')] *)
Definition strip_control (s : jsstring) : jsstring :=
  List.filter (fun c => negb (isControl c)) s.

Definition cleanExtractedText (text : jsstring) : jsstring :=
  if negb (truthy (VStr text)) then []
  else trim (strip_control
               (squeeze_blank_lines 0 (collapse_whitespace false text))).

(** The bytes of an uploaded file. *)
Definition Buffer := list N.

(** The file object the upload middleware hands over. [file_size] is a
    number of bytes, below [2^53]; [file_originalname] may be missing. *)
Record File := {
  file_buffer : Buffer;
  file_size : N;
  file_mimetype : jsstring;
  file_originalname : option jsstring
}.

(** [(size / 1024 / 1024).toFixed(2)]: both divisions are exact, and
    [toFixed] picks the nearest number of hundredths, the larger one on a
    tie. *)
Definition megabytes_fixed (size : N) : jsstring :=
  let hundredths := ((200 * size + 1048576) / 2097152)%N in
  decimal (Z.of_N (hundredths / 100))
    ++ lit "." ++ [(48 + (hundredths mod 100) / 10)%N;
                   (48 + (hundredths mod 100) mod 10)%N].

Definition allowedTypes : list jsstring := List.map lit [
  "application/pdf";
  "application/msword";
  "application/vnd.openxmlformats-officedocument.wordprocessingml.document";
  "text/plain";
  "text/markdown"
].

(** [file.originalname] as a value. *)
Definition optional (s : option jsstring) : JsVal :=
  match s with
  | Some s => VStr s
  | None => VUndefined
  end.

(** [!name || name.trim().length === 0] *)
Definition missing_name (name : option jsstring) : bool :=
  negb (truthy (optional name))
  || (length (trim (default [] name)) =? 0)%nat.

(** [validateFile]; [None] is a file that is [null] or [undefined]. The
    errors come in the order of the three checks. *)
Definition validateFile (file : option File) : list jsstring :=
  match file with
  | None => [lit "No file provided"]
  | Some file =>
      let maxSize := (50 * 1024 * 1024)%N in
      (if (maxSize <? file_size file)%N
       then [lit "File size (" ++ megabytes_fixed (file_size file)
               ++ lit "MB) exceeds maximum limit of 50MB"]
       else [])
      ++ (if negb (existsb (str_eqb (file_mimetype file)) allowedTypes)
          then [lit "File type " ++ file_mimetype file
                  ++ lit " is not supported. Allowed types: PDF, Word, Text, Markdown"]
          else [])
      ++ (if missing_name (file_originalname file)
          then [lit "File must have a valid filename"]
          else [])
  end.

(** [errors.join(', ')] *)
Fixpoint join (sep : jsstring) (items : list jsstring) : jsstring :=
  match items with
  | [] => []
  | [x] => x
  | x :: rest => x ++ sep ++ join sep rest
  end.

(** [s.split(/\s+/)]: the pieces between the maximal runs of whitespace; a
    run at either end leaves an empty piece there. *)
Fixpoint split_whitespace (in_run : bool) (s : jsstring) : list jsstring :=
  match s with
  | [] => [[]]
  | c :: r =>
      if isWhiteSpace c then
        if in_run then split_whitespace true r
        else [] :: split_whitespace true r
      else match split_whitespace false r with
           | piece :: pieces => (c :: piece) :: pieces
           | [] => [[c]]
           end
  end.

Definition securityKeywords : list jsstring := List.map lit [
  "security"; "cybersecurity"; "vulnerability"; "threat"; "risk"; "compliance";
  "encryption"; "authentication"; "authorization"; "firewall"; "malware";
  "phishing"; "breach"; "incident"; "policy"; "procedure"; "audit";
  "access control"; "data protection"; "privacy"; "gdpr"; "hipaa";
  "iso 27001"; "nist"; "sox"; "pci dss"
].

(** The object [analyzeContent] returns; [content_length] is its [length]
    field. *)
Record ContentAnalysis := {
  content_length : nat;
  wordCount : nat;
  lineCount : nat;
  hasSecurityKeywords : bool;
  foundKeywords : list jsstring;
  estimatedReadingTime : nat
}.

(** What [getFileMetadata] returns. *)
Record FileMetadata := {
  filename : option jsstring;
  size : N;
  sizeFormatted : jsstring;
  mimetype : jsstring;
  extension : jsstring;
  uploadTimestamp : Z
}.

(** What [processDocument] returns; [doc_metadata] and [doc_content] are
    its [metadata] and [content] fields. *)
Record ProcessedDocument := {
  doc_metadata : FileMetadata;
  doc_content : jsstring;
  contentAnalysis : ContentAnalysis;
  processingTimestamp : Z
}.

Section DocumentProcessor.

Variable toLowerCase : jsstring -> jsstring.

(** [filename.split('.').pop().toLowerCase()], and the empty string for a
    missing or empty name. *)
Definition getFileExtension (filename : option jsstring) : jsstring :=
  if negb (truthy (optional filename)) then []
  else toLowerCase (default [] (last (split 46%N (default [] filename)))).

(** [Math.ceil(wordCount / 200)] on a word count is the rounded-up
    quotient. *)
Definition analyzeContent (content : jsstring) : ContentAnalysis :=
  let words := length (split_whitespace false content) in
  let contentLower := toLowerCase content in
  let found :=
    List.filter (fun keyword => includes contentLower (toLowerCase keyword))
      securityKeywords in
  {| content_length := length content;
     wordCount := words;
     lineCount := length (split LF content);
     hasSecurityKeywords := (0 <? length found)%nat;
     foundKeywords := found;
     estimatedReadingTime := (words + 199) / 200 |}.

(** The decoders the module requires: [pdfParse(buffer)] resolving to
    [data.text], [mammoth.extractRawText({buffer})] resolving to
    [result.value], each a string or a rejection, and
    [buffer.toString('utf-8')]. *)
Variable pdfParse : Buffer -> Result jsstring.
Variable extractRawText : Buffer -> Result jsstring.
Variable utf8 : Buffer -> jsstring.

(** The body shared by [extractFromPDF] and [extractFromWord], up to the
    message for an empty document, the name of the format in the messages
    ([document]) and the one in the error log line ([short]). *)
Definition extractWith (decoder : Buffer -> Result jsstring)
    (empty document short : string) (buffer : Buffer) : M jsstring :=
  try_catch
    (let* raw := lift (decoder buffer) in
     let text := trim raw in
     do when (negb (truthy (VStr text)) || (length text =? 0)%nat)
          (throw (Error (lit empty))) then
     let cleanedText := cleanExtractedText text in
     do logger LvInfo
          (lit "Extracted " ++ decimal (Z.of_nat (length cleanedText))
             ++ lit " characters from " ++ lit document) DNone then
     ret cleanedText)
    (fun error =>
       do logger LvError (lit short ++ lit " extraction error:")
            (DThrown error) then
       throw (Error (lit "Failed to extract text from " ++ lit document
                       ++ lit ": " ++ message_of error))).

Definition extractFromPDF : Buffer -> M jsstring :=
  extractWith pdfParse
    "PDF appears to be empty or contains no readable text" "PDF" "PDF".

Definition extractFromWord : Buffer -> M jsstring :=
  extractWith extractRawText
    "Word document appears to be empty or contains no readable text"
    "Word document" "Word".

Definition extractText (file : File) : M jsstring :=
  try_catch
    (let mimetype := file_mimetype file in
     do logger LvInfo
          (lit "Extracting text from "
             ++ match file_originalname file with
                | Some name => name
                | None => lit "undefined"
                end
             ++ lit " (" ++ mimetype ++ lit ")") DNone then
     if str_eqb mimetype (lit "application/pdf") then
       extractFromPDF (file_buffer file)
     else if str_eqb mimetype (lit "application/msword")
             || str_eqb mimetype
                  (lit "application/vnd.openxmlformats-officedocument.wordprocessingml.document")
     then extractFromWord (file_buffer file)
     else if str_eqb mimetype (lit "text/plain")
             || str_eqb mimetype (lit "text/markdown")
     then ret (utf8 (file_buffer file))
     else throw (Error (lit "Unsupported file type: " ++ mimetype)))
    (fun error =>
       do logger LvError (lit "Text extraction error:") (DThrown error) then
       throw (Error (lit "Failed to extract text: " ++ message_of error))).

(** [formatFileSize] computes with floating-point logarithms; it is taken
    as given. *)
Variable formatFileSize : N -> jsstring.

(** The successive readings of the system clock. *)
Variable clock : nat -> Z.

(** [getFileMetadata]; [uploadTimestamp] holds the instant read. *)
Definition getFileMetadata (file : File) : M FileMetadata :=
  let* stamp := Date_now clock in
  ret {| filename := file_originalname file;
         size := file_size file;
         sizeFormatted := formatFileSize (file_size file);
         mimetype := file_mimetype file;
         extension := getFileExtension (file_originalname file);
         uploadTimestamp := stamp |}.

Definition processDocument (file : option File) : M ProcessedDocument :=
  try_catch
    (let validationErrors := validateFile file in
     do when (0 <? length validationErrors)%nat
          (throw (Error (lit "File validation failed: "
                           ++ join (lit ", ") validationErrors))) then
     match file with
     | None =>
         throw (TypeError
                  (lit "Cannot read properties of undefined (reading 'originalname')"))
     | Some file =>
         let* metadata := getFileMetadata file in
         let* content := extractText file in
         do when (negb (truthy (VStr content))
                  || (length (trim content) =? 0)%nat)
              (throw (Error (lit "No readable text content found in the document"))) then
         do when (length content <? 50)%nat
              (throw (Error (lit "Document content is too short for meaningful analysis (minimum 50 characters required)"))) then
         let contentAnalysis := analyzeContent content in
         do logger LvInfo
              (lit "Document processed successfully: "
                 ++ match filename metadata with
                    | Some name => name
                    | None => lit "undefined"
                    end) DNone then
         let* stamp := Date_now clock in
         ret {| doc_metadata := metadata;
                doc_content := content;
                contentAnalysis := contentAnalysis;
                processingTimestamp := stamp |}
     end)
    (fun error =>
       do logger LvError (lit "Document processing error:") (DThrown error) then
       throw error).

End DocumentProcessor.

(* ===================================================================== *)
(** ** The database wrapper and the health check *)
(* ===================================================================== *)

(** A row of a query result: its columns. *)
Definition Row := list (jsstring * JsVal).

(** What [pool.query] resolves to; the callers modelled here read its
    [rows] only. *)
Record QueryResult := { rows : list Row }.

(** What [db.healthCheck] returns: the object with status ['healthy'] or
    the one with status ['unhealthy']. *)
Inductive DbHealth :=
| Healthy (timestamp : JsVal) (connection_count idle_count waiting_count : N)
| Unhealthy (error : jsstring).

(** The [status] field of either object. *)
Definition db_status (h : DbHealth) : jsstring :=
  match h with
  | Healthy _ _ _ _ => lit "healthy"
  | Unhealthy _ => lit "unhealthy"
  end.

(** [services.ai_providers] of the health report. *)
Record AiProviders := {
  ai_claude : jsstring;
  ai_openai : jsstring;
  ai_gemini : jsstring
}.

(** The report of the health route. [h_uptime] and [h_system] are the
    figures read from the process, not interpreted here; [h_warning] is
    [None] while the property is not set. *)
Record HealthReport := {
  h_status : jsstring;
  h_timestamp : Z;
  h_uptime : JsVal;
  h_environment : jsstring;
  h_version : jsstring;
  h_database : DbHealth;
  h_ai_providers : AiProviders;
  h_system : JsVal;
  h_warning : option jsstring
}.

(** What the health route sends: [res.status(code).json(body)], the body
    being the report or, from the outer [catch], the failure notice with
    its timestamp and message. *)
Inductive HealthResponse :=
| Report (code : Z) (body : HealthReport)
| Failure (code : Z) (timestamp : Z) (message : jsstring).

Section Database.

Variable toLowerCase : jsstring -> jsstring.
Variable env : gmap string jsstring.
Variable clock : nat -> Z.

(** [pool.query(text, params)], and the three counters of the pool. *)
Variable pool_query : jsstring -> JsVal -> Result QueryResult.
Variable totalCount idleCount waitingCount : N.

(** [process.uptime()] and the block of memory and processor figures. *)
Variable uptime : JsVal.
Variable system : JsVal.

Definition query (text : jsstring) (params : JsVal) : M QueryResult :=
  let* start := Date_now clock in
  try_catch
    (let* res := lift (pool_query text params) in
     let* now := Date_now clock in
     let duration := (now - start)%Z in
     do when (1000 <? duration)%Z
          (logger LvWarn
             (lit "Slow query detected (" ++ decimal duration ++ lit "ms): "
                ++ substring text 0 100 ++ lit "...") DNone) then
     ret res)
    (fun error =>
       do logger LvError (lit "Database query error:")
            (DValue (VObj [(lit "query", VStr (substring text 0 100));
                           (lit "params", params);
                           (lit "error", VStr (message_of error))])) then
       throw error).

(** [result.rows[0].current_time] *)
Definition current_time (result : QueryResult) : Result JsVal :=
  match rows result with
  | [] =>
      Throw (TypeError
               (lit "Cannot read properties of undefined (reading 'current_time')"))
  | row :: _ => Ok (default VUndefined (own row (lit "current_time")))
  end.

Definition healthCheck : M DbHealth :=
  try_catch
    (let* result := query (lit "SELECT NOW() as current_time") VUndefined in
     let* now := lift (current_time result) in
     ret (Healthy now totalCount idleCount waitingCount))
    (fun error => ret (Unhealthy (message_of error))).

(** ['available'] or ['not configured'] *)
Definition availability (provider : string) : jsstring :=
  if checkServiceAvailability toLowerCase env (lit provider)
  then lit "available" else lit "not configured".

(** The handler of [GET /] of the health router. The [catch] block around
    the three availability checks cannot run, [checkServiceAvailability]
    raising nothing. *)
Definition healthRoute : M HealthResponse :=
  try_catch
    (let* stamp := Date_now clock in
     let environment :=
       match env !! "NODE_ENV" with
       | Some (c :: v) => c :: v
       | _ => lit "development"
       end in
     let* checked :=
       try_catch
         (let* dbHealth := healthCheck in ret (dbHealth, lit "healthy"))
         (fun error => ret (Unhealthy (message_of error), lit "degraded")) in
     let '(database, status) := checked in
     let ai_providers :=
       {| ai_claude := availability "claude";
          ai_openai := availability "openai";
          ai_gemini := availability "gemini" |} in
     let report status warning :=
       {| h_status := status; h_timestamp := stamp; h_uptime := uptime;
          h_environment := environment; h_version := lit "2.0.0";
          h_database := database; h_ai_providers := ai_providers;
          h_system := system; h_warning := warning |} in
     if str_eqb (db_status database) (lit "unhealthy") then
       ret (Report 503 (report (lit "unhealthy") None))
     else
       let availableAI :=
         length (List.filter (fun s => str_eqb s (lit "available"))
                   [ai_claude ai_providers; ai_openai ai_providers;
                    ai_gemini ai_providers]) in
       let '(status, warning) :=
         if (availableAI =? 0)%nat
         then (lit "degraded", Some (lit "No AI services configured"))
         else (status, None) in
       let statusCode :=
         if str_eqb status (lit "healthy") then 200%Z
         else if str_eqb status (lit "degraded") then 200%Z else 503%Z in
       ret (Report statusCode (report status warning)))
    (fun error =>
       do logger LvError (lit "Health check failed:") (DThrown error) then
       let* stamp := Date_now clock in
       ret (Failure 503 stamp (message_of error))).

End Database.

(* ===================================================================== *)
(** ** The upload route *)
(* ===================================================================== *)

(** The bodies the handler of [POST /upload] sends. In the success body
    [processingTime] is [analysis.processingTime || 'N/A']. *)
Inductive UploadBody :=
| ValidationFailed (details : list JsVal)
| NoFileUploaded
| CannotExtractText
| DocumentAnalyzed (documentId : JsVal) (filename : option jsstring)
    (analysis : AnalysisResult) (fileSize : N) (aiProvider analysisType : jsstring)
    (processingTime : jsstring)
| InvalidFileType (message : jsstring)
| AIServiceUnavailable
| ProcessingFailed.

(** [res.status(code).json(body)]; [res.json(body)] is status 200. *)
Definition UploadResponse : Type := Z * UploadBody.

(** [documentResult.rows[0].id] *)
Definition first_id (result : QueryResult) : Result JsVal :=
  match rows result with
  | [] => Throw (TypeError (lit "Cannot read properties of undefined (reading 'id')"))
  | row :: _ => Ok (default VUndefined (own row (lit "id")))
  end.

Definition insert_document : jsstring :=
  lit "INSERT INTO documents (user_id, filename, file_size, mime_type, content, created_at) "
    ++ [LF] ++ lit "       VALUES ($1, $2, $3, $4, $5, NOW()) RETURNING id".

Definition insert_analysis : jsstring :=
  lit "INSERT INTO analyses (document_id, user_id, ai_provider, analysis_type, custom_prompt, result, created_at) "
    ++ [LF] ++ lit "       VALUES ($1, $2, $3, $4, $5, $6, NOW())".

(** The [catch] block of the handler: the answer is chosen by what the
    message of the error contains. *)
Definition upload_failure (error : Thrown) : M UploadResponse :=
  do logger LvError (lit "Document upload/analysis error:") (DThrown error) then
  if includes (message_of error) (lit "Invalid file type") then
    ret (400%Z, InvalidFileType (message_of error))
  else if includes (message_of error) (lit "AI service") then
    ret (503%Z, AIServiceUnavailable)
  else ret (500%Z, ProcessingFailed).

Section UploadRoute.

Variable toLowerCase : jsstring -> jsstring.
Variable env : gmap string jsstring.
Variable clock : nat -> Z.
Variable transport : Request -> JsVal + AxiosFailure.
Variable pdfParse : Buffer -> Result jsstring.
Variable extractRawText : Buffer -> Result jsstring.
Variable utf8 : Buffer -> jsstring.
Variable pool_query : jsstring -> JsVal -> Result QueryResult.

(** [JSON.stringify] of the analysis result. *)
Variable stringify : AnalysisResult -> jsstring.

(** The handler of [POST /upload], once the authentication, the upload and
    the validators have run: [validationErrors] is [errors.array()],
    [file] is [req.file], [userId] is [req.user.userId] and the three last
    arguments are the fields of [req.body]. The result has no
    [processingTime] of its own (the time is under [metadata]), so the
    success body always says ['N/A']. *)
Definition upload (validationErrors : list JsVal) (file : option File)
    (userId : JsVal) (aiProvider : jsstring)
    (analysisType customPrompt : option jsstring) : M UploadResponse :=
  try_catch
    (if (0 <? length validationErrors)%nat then
       ret (400%Z, ValidationFailed validationErrors)
     else
       match file with
       | None => ret (400%Z, NoFileUploaded)
       | Some file =>
           let analysisType := default (lit "general") analysisType in
           let* user := lift (ToString userId) in
           let* name := lift (ToString (optional (file_originalname file))) in
           do logger LvInfo
                (lit "Processing document upload for user " ++ user
                   ++ lit ": " ++ name) DNone then
           let* extractedText :=
             extractText pdfParse extractRawText utf8 file in
           if negb (truthy (VStr extractedText))
              || (length (trim extractedText) =? 0)%nat
           then ret (400%Z, CannotExtractText)
           else
             let* documentResult :=
               query clock pool_query insert_document
                 (VArr [userId; optional (file_originalname file);
                        VNum (Z.of_N (file_size file));
                        VStr (file_mimetype file); VStr extractedText]) in
             let* documentId := lift (first_id documentResult) in
             let* analysis :=
               analyzeWithAI toLowerCase env clock transport extractedText
                 aiProvider (Some analysisType) customPrompt in
             let* _ :=
               query clock pool_query insert_analysis
                 (VArr [documentId; userId; VStr aiProvider; VStr analysisType;
                        optional customPrompt; VStr (stringify analysis)]) in
             let* user := lift (ToString userId) in
             let* document := lift (ToString documentId) in
             do logger LvInfo
                  (lit "Document analysis completed for user " ++ user
                     ++ lit ", document " ++ document) DNone then
             ret (200%Z,
                  DocumentAnalyzed documentId (file_originalname file) analysis
                    (file_size file) aiProvider analysisType (lit "N/A"))
       end)
    upload_failure.

End UploadRoute.

(** A pool that answers every query with one row, and one that refuses
    connections. *)
Definition sample_pool (text : jsstring) (params : JsVal) : Result QueryResult :=
  Ok {| rows := [[(lit "current_time", VStr (lit "2024-05-01T10:00:00.000Z"))]] |}.

Definition failing_pool (text : jsstring) (params : JsVal) : Result QueryResult :=
  Throw (Error (lit "connect ECONNREFUSED 127.0.0.1:5432")).

(** Decoders and files for the concrete runs: a PDF whose text has tabs,
    line feeds, a control character and runs of spaces, and a Word file
    that cannot be read. *)
Definition sample_pdfParse (buffer : Buffer) : Result jsstring :=
  Ok ([9; 10]%N ++ lit "Access   control" ++ [0; 10; 10]%N ++ lit "policy  ").

Definition sample_extractRawText (buffer : Buffer) : Result jsstring :=
  Throw (Error (lit "Could not find the body element")).

Definition sample_utf8 (buffer : Buffer) : jsstring := buffer.

Definition sample_formatFileSize (bytes : N) : jsstring :=
  decimal (Z.of_N bytes) ++ lit " Bytes".

Definition sample_file (mimetype : string) (text : jsstring) : File :=
  {| file_buffer := text;
     file_size := N.of_nat (length text);
     file_mimetype := lit mimetype;
     file_originalname := Some (lit "Policy.v2.PDF") |}.

(* ===================================================================== *)
(** ** Facts about the result structurer *)
(* ===================================================================== *)

Section StructurerFacts.

Variable toLowerCase : jsstring -> jsstring.

Lemma scan_step_heading acc line :
  heading toLowerCase line = true -> fst (scan_step toLowerCase acc line) = S_compliance.
Proof.
  destruct acc as [cs cc]. unfold heading, scan_step. cbn.
  intros ->. reflexivity.
Qed.

Lemma scan_step_other acc line :
  heading toLowerCase line = false -> fst (scan_step toLowerCase acc line) = fst acc.
Proof.
  destruct acc as [cs cc]. unfold heading, scan_step. cbn.
  intros ->. reflexivity.
Qed.

Lemma scan_step_buffer acc line :
  snd (scan_step toLowerCase acc line) = snd acc ++ line ++ [LF].
Proof. destruct acc as [cs cc]. reflexivity. Qed.

(** The loop from any state: the buffer grows by every line, and the target
    is [compliance] as soon as one line is a heading. *)
Lemma scan_from lines : forall acc,
  fold_left (scan_step toLowerCase) lines acc =
    (if existsb (heading toLowerCase) lines then S_compliance else fst acc,
     snd acc ++ concat (List.map (fun line => line ++ [LF]) lines)).
Proof.
  induction lines as [|line lines IH]; intros [cs cc]; cbn [fold_left].
  - cbn. rewrite app_nil_r. reflexivity.
  - rewrite IH, scan_step_buffer. cbn [existsb List.map concat fst snd].
    rewrite <- !app_assoc. f_equal.
    destruct (heading toLowerCase line) eqn:Hh; cbn [orb].
    + rewrite (scan_step_heading _ _ Hh). destruct (existsb (heading toLowerCase) lines); reflexivity.
    + rewrite (scan_step_other _ _ Hh). reflexivity.
Qed.

Lemma scan_spec lines :
  scan toLowerCase lines =
    (if existsb (heading toLowerCase) lines then S_compliance else S_summary,
     concat (List.map (fun line => line ++ [LF]) lines)).
Proof. unfold scan. rewrite scan_from. reflexivity. Qed.

Lemma scan_target lines :
  fst (scan toLowerCase lines) = S_summary
  \/ fst (scan toLowerCase lines) = S_compliance.
Proof.
  rewrite scan_spec. cbn. destruct (existsb (heading toLowerCase) lines); auto.
Qed.

(** The flush: the whole buffer lands in the target of the scan, and the
    three other list sections keep their initial empty array. *)
Lemma flushed_spec lines :
  flushed toLowerCase lines =
    Ok (let buffer := snd (scan toLowerCase lines) in
        if truthy (VStr buffer)
        then sections_set (sections_of (VStr [])) (fst (scan toLowerCase lines))
               (VStr buffer)
        else sections_of (VStr [])).
Proof.
  unfold flushed. destruct (scan_target lines) as [H|H];
    destruct (scan toLowerCase lines) as [cs cc]; cbn in H; subst cs;
    cbn [fst snd]; destruct (truthy (VStr cc)); reflexivity.
Qed.

Lemma flushed_findings lines :
  exists sections,
    flushed toLowerCase lines = Ok sections
    /\ findings sections = VArr []
    /\ recommendations sections = VArr []
    /\ risks sections = VArr [].
Proof.
  rewrite flushed_spec. eexists; split; [reflexivity|].
  cbv zeta. destruct (truthy _); [|cbn; auto].
  destruct (scan_target lines) as [-> | ->]; cbn; auto.
Qed.

(** The conversion cannot start: [findings] still holds an array, which is
    truthy and has no [split]. *)
Lemma forEach_findings sections rest :
  findings sections = VArr [] ->
  forEach (S_findings :: rest) sections =
    Throw (TypeError (lit "sections[section].split is not a function")).
Proof.
  intros H. cbn [forEach]. unfold convert. cbn [sections_get]. rewrite H.
  reflexivity.
Qed.

Lemma structureAnalysis_catches analysisText analysisType st :
  exists e,
    structureAnalysis toLowerCase analysisText analysisType st =
      (Ok (sections_of analysisText),
       {| reads := reads st;
          trace := trace st
                     ++ [EvLog LvWarn (lit "Failed to structure analysis output:")
                           (DThrown e)] |}).
Proof.
  unfold structureAnalysis, try_catch, bind, lift, logger, emit, ret.
  destruct (split_text analysisText) as [pieces|e] eqn:Hs; [|eauto].
  destruct (flushed_findings (List.filter nonblank pieces))
    as (sections & -> & Hf & _).
  rewrite (forEach_findings _ _ Hf). eauto.
Qed.

Lemma structureAnalysis_string (rawText analysisType : jsstring) st :
  structureAnalysis toLowerCase (VStr rawText) analysisType st =
    (Ok (sections_of (VStr rawText)),
     {| reads := reads st;
        trace := trace st
                   ++ [EvLog LvWarn (lit "Failed to structure analysis output:")
                         (DThrown (TypeError
                            (lit "sections[section].split is not a function")))] |}).
Proof.
  unfold structureAnalysis, try_catch, bind, lift, logger, emit, ret.
  cbn [split_text].
  destruct (flushed_findings (List.filter nonblank (split LF rawText)))
    as (sections & -> & Hf & _).
  rewrite (forEach_findings _ _ Hf). reflexivity.
Qed.

End StructurerFacts.

(** C7: the result structurer is total and never fails: for every input
    string it returns, and what it returns is exactly the degraded object
    [{summary: rawText, findings: [], recommendations: [], risks: [],
    compliance: []}], whatever structure the text has; its only effect is the
    warning logged by the [catch] block. *)
Theorem structureAnalysis_total_degraded :
  forall toLowerCase (rawText analysisType : jsstring) (st : State),
    structureAnalysis toLowerCase (VStr rawText) analysisType st =
      (Ok {| summary := VStr rawText; findings := VArr [];
             recommendations := VArr []; risks := VArr [];
             compliance := VArr [] |},
       {| reads := reads st;
          trace := trace st
                     ++ [EvLog LvWarn (lit "Failed to structure analysis output:")
                           (DThrown (TypeError
                              (lit "sections[section].split is not a function")))] |}).
Proof. intros. apply structureAnalysis_string. Qed.

(** C10: for every input string the structurer returns [findings],
    [recommendations] and [risks] as empty sequences; the target section of
    the scan is only ever [summary] or [compliance], so the flush leaves the
    three other list sections at their initial empty array. *)
Theorem three_sections_stay_empty :
  forall toLowerCase,
    (forall lines,
        fst (scan toLowerCase lines) = S_summary
        \/ fst (scan toLowerCase lines) = S_compliance)
    /\ (forall lines, exists sections,
           flushed toLowerCase lines = Ok sections
           /\ findings sections = VArr []
           /\ recommendations sections = VArr []
           /\ risks sections = VArr [])
    /\ (forall (rawText analysisType : jsstring) (st : State),
           exists sections st',
             structureAnalysis toLowerCase (VStr rawText) analysisType st =
               (Ok sections, st')
             /\ findings sections = VArr []
             /\ recommendations sections = VArr []
             /\ risks sections = VArr []).
Proof.
  intros toLowerCase. split; [|split].
  - apply scan_target.
  - apply flushed_findings.
  - intros. rewrite structureAnalysis_string.
    eexists _, _. split; [reflexivity|]. cbn. auto.
Qed.

(** C6: at the answer ["Summary: ok\nFinding: none"] the scan does switch
    its target to [compliance] and the flush does put the whole buffer
    there, but the conversion to lines never takes place: the loop reaches
    [findings] first, which still holds the (truthy) empty array, and the
    call of [split] on it raises; the [catch] block then returns the raw
    text as [summary] and an empty [compliance]. The same holds for every
    list of lines. *)
Theorem heading_lines_never_reach_compliance :
  scan asciiLower (List.filter nonblank (split LF sample_answer))
    = (S_compliance, sample_answer ++ [LF])
  /\ flushed asciiLower (List.filter nonblank (split LF sample_answer))
     = Ok {| summary := VStr []; findings := VArr [];
             recommendations := VArr []; risks := VArr [];
             compliance := VStr (sample_answer ++ [LF]) |}
  /\ fst (structureAnalysis asciiLower (VStr sample_answer) (lit "general") start)
     = Ok {| summary := VStr sample_answer; findings := VArr [];
             recommendations := VArr []; risks := VArr [];
             compliance := VArr [] |}
  /\ (forall toLowerCase lines, exists sections,
         flushed toLowerCase lines = Ok sections
         /\ forEach [S_findings; S_recommendations; S_risks; S_compliance]
              sections
            = Throw (TypeError (lit "sections[section].split is not a function"))).
Proof.
  split; [vm_compute; reflexivity|].
  split; [vm_compute; reflexivity|].
  split; [vm_compute; reflexivity|].
  intros toLowerCase lines.
  destruct (flushed_findings toLowerCase lines) as (sections & H & Hf & _).
  exists sections. split; [exact H|]. apply forEach_findings, Hf.
Qed.

(* ===================================================================== *)
(** ** Facts about strings and values *)
(* ===================================================================== *)

Lemma str_eqb_eq a : forall b, str_eqb a b = true <-> a = b.
Proof.
  induction a as [|x a IH]; intros [|y b]; cbn; try (split; [discriminate|discriminate]);
    try (split; reflexivity).
  rewrite andb_true_iff, N.eqb_eq, IH. split.
  - intros [-> ->]. reflexivity.
  - intros [= -> ->]. auto.
Qed.

Lemma str_eqb_refl a : str_eqb a a = true.
Proof. apply str_eqb_eq. reflexivity. Qed.

Lemma str_eqb_neq a b : a <> b -> str_eqb a b = false.
Proof.
  intros H. destruct (str_eqb a b) eqn:E; [|reflexivity].
  apply str_eqb_eq in E. contradiction.
Qed.

(** The guard [!content || content.trim().length === 0] holds exactly when
    trimming leaves nothing. *)
Lemma blank_guard content :
  negb (truthy (VStr content)) || (length (trim content) =? 0)%nat = true
  <-> trim content = [].
Proof.
  rewrite orb_true_iff, Nat.eqb_eq. split.
  - intros [H|H].
    + destruct content; [reflexivity|discriminate].
    + destruct (trim content); [reflexivity|discriminate].
  - intros ->. right. reflexivity.
Qed.

Lemma substring_from_0 s n : substring s 0 n = take n s.
Proof.
  unfold substring. cbn [Nat.min]. rewrite Nat.max_0_l, Nat.sub_0_r.
  cbn [drop]. destruct (Nat.le_ge_cases n (length s)).
  - rewrite Nat.min_l by assumption. reflexivity.
  - rewrite Nat.min_r by assumption. rewrite !take_ge; auto with arith.
Qed.

(** Induction on values, through the lists nested in arrays and objects. *)
Lemma JsVal_nested_ind (P : JsVal -> Prop) :
  P VUndefined -> P VNull -> (forall b, P (VBool b)) -> (forall n, P (VNum n)) ->
  P VNaN -> (forall s, P (VStr s)) ->
  (forall items, Forall P items -> P (VArr items)) ->
  (forall props, P (VObj props)) ->
  (forall name, P (VBuiltin name)) ->
  forall v, P v.
Proof.
  intros HU HN HB HZ HNaN HS HA HO HF.
  fix IH 1. intros [| |b|n| |s|items|props|name].
  - exact HU.
  - exact HN.
  - apply HB.
  - apply HZ.
  - exact HNaN.
  - apply HS.
  - apply HA. induction items as [|x items IHitems]; constructor.
    + apply IH.
    + exact IHitems.
  - apply HO.
  - apply HF.
Qed.

(** The only exception ToString raises. *)
Lemma ToString_throw v : forall e, ToString v = Throw e -> e = cannot_convert.
Proof.
  induction v as [| |b|n| |s|items IH|props|name] using JsVal_nested_ind;
    intros e; cbn [ToString]; try discriminate.
  - destruct b; discriminate.
  - induction IH as [|x items Hx _ IHitems]; [discriminate|].
    destruct (match x with VUndefined | VNull => Ok [] | _ => ToString x end)
      as [sx|ex] eqn:Ex.
    + destruct items as [|y items]; [discriminate|].
      match goal with |- context [match ?j with Ok _ => _ | Throw _ => _ end] =>
        destruct j as [sr|er] eqn:Er end; [discriminate|].
      intros [= <-]. apply IHitems. reflexivity.
    + intros [= <-]. apply Hx. destruct x; try discriminate; exact Ex.
  - destruct (own props (lit "toString")); [|discriminate].
    intros [= <-]. reflexivity.
Qed.

(* ===================================================================== *)
(** ** Facts about the prompt selection *)
(* ===================================================================== *)

Arguments lit : simpl never.
Arguments decimal : simpl never.
Arguments block : simpl never.

Lemma own_prompt k v :
  own ANALYSIS_PROMPTS k = Some v ->
  exists s, v = VStr s /\ truthy (VStr s) = true.
Proof.
  unfold ANALYSIS_PROMPTS. cbn [own].
  repeat (destruct (str_eqb _ k);
          [intros [= <-]; eexists; split; [reflexivity|reflexivity]|]).
  discriminate.
Qed.

Lemma inherited_shape k :
  Object_prototype k = VUndefined
  \/ Object_prototype k = VObj []
  \/ exists name, Object_prototype k = VBuiltin name.
Proof.
  unfold Object_prototype.
  destruct (str_eqb k (lit "constructor")); [eauto|].
  destruct (str_eqb k (lit "__proto__")); [eauto|].
  destruct (existsb _ _); eauto.
Qed.

(** A custom prompt that is present and not empty is used as it is. *)
Lemma prompt_of_custom analysisType s :
  s <> [] -> prompt_of analysisType (Some s) = VStr s.
Proof.
  intros H. unfold prompt_of, js_or. cbn [nullable truthy].
  destruct s; [contradiction|reflexivity].
Qed.

(** Without one, the lookup in the table decides, and [general] is used
    only when the lookup is falsy. *)
Lemma prompt_of_table analysisType customPrompt :
  customPrompt = None \/ customPrompt = Some [] ->
  prompt_of analysisType customPrompt =
    js_or (ANALYSIS_PROMPTS_at analysisType) (VStr general_prompt).
Proof.
  intros [-> | ->]; reflexivity.
Qed.

(** Whatever is selected renders without an exception. *)
Lemma prompt_renders analysisType customPrompt :
  exists p, ToString (prompt_of analysisType customPrompt) = Ok p.
Proof.
  assert (Htable : exists p,
             ToString (js_or (ANALYSIS_PROMPTS_at analysisType)
                         (VStr general_prompt)) = Ok p).
  { unfold ANALYSIS_PROMPTS_at.
    destruct (own ANALYSIS_PROMPTS analysisType) as [v|] eqn:E.
    - destruct (own_prompt _ _ E) as (s & -> & Hs).
      unfold js_or. rewrite Hs. eauto.
    - destruct (inherited_shape analysisType) as [-> | [-> | [name ->]]];
        unfold js_or; cbn; eauto. }
  destruct customPrompt as [[|c s]|].
  - rewrite prompt_of_table by auto. exact Htable.
  - rewrite prompt_of_custom by discriminate. cbn. eauto.
  - rewrite prompt_of_table by auto. exact Htable.
Qed.

Lemma user_text_renders analysisType customPrompt content :
  exists p,
    ToString (prompt_of analysisType customPrompt) = Ok p
    /\ user_text (prompt_of analysisType customPrompt) content =
         Ok (p ++ [LF; LF] ++ lit "Document content:" ++ [LF]
               ++ take 50000 content).
Proof.
  destruct (prompt_renders analysisType customPrompt) as [p Hp].
  exists p. split; [exact Hp|].
  unfold user_text. rewrite Hp, substring_from_0. reflexivity.
Qed.

(* ===================================================================== *)
(** ** Facts about the adapters *)
(* ===================================================================== *)

Section AdapterFacts.

Variable env : gmap string jsstring.
Variable transport : Request -> JsVal + AxiosFailure.

(** The shared [catch] block: one log line, then the generic error built
    from the rendered message — unless rendering itself raises. *)
Lemma service_failure_run {A} api service error st :
  @service_failure A api service error st =
    (match ToString (service_message error) with
     | Ok m => Throw (Error (lit service ++ lit " service error: " ++ m))
     | Throw e => Throw e
     end,
     {| reads := reads st;
        trace := trace st
                   ++ [EvLog LvError (lit api ++ lit " API error:")
                         (DValue (js_or (response_data error)
                                    (VStr (message_of error))))] |}).
Proof.
  unfold service_failure, bind, logger, emit, lift, throw. cbn.
  destruct (ToString (service_message error)); reflexivity.
Qed.

Ltac step :=
  match goal with
  | |- context [match ?r with Ok _ => _ | Throw _ => _ end] =>
      lazymatch r with
      | ToString (service_message _) => fail
      | _ => destruct r eqn:?
      end
  | |- context [if ?b then _ else _] => destruct b eqn:?
  end.

(** Every run of an adapter sends exactly one request, whose text is the
    rendered prompt, the marker and the truncated document; a failure
    surfaces through the shared [catch] block. *)
Lemma adapter_run p content analysisType customPrompt st :
  exists text outcome logs,
    user_text (prompt_of analysisType customPrompt) content = Ok text
    /\ adapter env transport p content analysisType customPrompt st =
         (outcome,
          {| reads := reads st;
             trace := trace st ++ EvPost (request_of env p text) :: logs |})
    /\ posts logs = []
    /\ match outcome with
       | Ok _ => True
       | Throw e => (exists m, e = service_error p m) \/ e = cannot_convert
       end.
Proof.
  destruct (user_text_renders analysisType customPrompt content)
    as (ptext & _ & Htext).
  remember (ptext ++ [LF; LF] ++ lit "Document content:" ++ [LF]
              ++ take 50000 content) as text eqn:Etext.
  exists text.
  assert (Hbody : exists body,
             adapter env transport p content analysisType customPrompt =
               try_catch body (service_failure (api_name p) (service_name p))
             /\ snd (body st) =
                  {| reads := reads st;
                     trace := trace st ++ [EvPost (request_of env p text)] |}).
  { destruct p; cbn [adapter api_name service_name];
      (eexists; split; [reflexivity|]);
      unfold bind, lift, axios_post, when, throw, ret;
      rewrite Htext; cbn [request_of];
      repeat step; reflexivity. }
  destruct Hbody as (body & -> & Hbody).
  unfold try_catch. destruct (body st) as [r st1]. cbn [snd] in Hbody.
  subst st1. destruct r as [a|e0].
  - exists (Ok a), []. split; [exact Htext|]. split; [reflexivity|].
    split; [reflexivity|exact I].
  - rewrite service_failure_run. cbn [reads trace].
    rewrite <- app_assoc. eexists _, [_]. split; [exact Htext|].
    split; [reflexivity|]. split; [reflexivity|].
    destruct (ToString (service_message e0)) as [m|e] eqn:E.
    + left. eauto.
    + right. eapply ToString_throw, E.
Qed.

End AdapterFacts.

(* ===================================================================== *)
(** ** Facts about the entry point *)
(* ===================================================================== *)

Section EntryFacts.

Variable toLowerCase : jsstring -> jsstring.
Variable env : gmap string jsstring.
Variable clock : nat -> Z.
Variable transport : Request -> JsVal + AxiosFailure.

Lemma validate_run content st :
  validate content st =
    (if negb (truthy (VStr content)) || (length (trim content) =? 0)%nat
     then Throw no_content
     else if (length content <? 50)%nat then Throw too_short else Ok tt,
     st).
Proof.
  unfold validate, bind, when, throw, ret.
  destruct (negb (truthy (VStr content)) || (length (trim content) =? 0)%nat);
    [reflexivity|].
  destruct (length content <? 50)%nat; reflexivity.
Qed.

(** The tail of a successful run: two more clock readings, the structurer's
    warning and the completion log line. *)
Lemma complete_run startTime content provider analysisType res st :
  exists e,
    complete toLowerCase clock startTime content provider analysisType res st =
      (Ok {| result := res;
             metadata :=
               {| analysisType := analysisType;
                  contentLength := length content;
                  processingTime :=
                    decimal (clock (reads st) - startTime) ++ lit "ms";
                  timestamp := clock (S (reads st)) |};
             structuredAnalysis := sections_of (analysis res) |},
       {| reads := S (S (reads st));
          trace := trace st
                     ++ [EvClock (clock (reads st));
                         EvClock (clock (S (reads st)));
                         EvLog LvWarn (lit "Failed to structure analysis output:")
                           (DThrown e);
                         EvLog LvInfo
                           (lit "AI analysis completed: " ++ provider ++ lit " ("
                              ++ decimal (clock (reads st) - startTime)
                              ++ lit "ms)") DNone] |}).
Proof.
  unfold complete, bind, Date_now, logger, emit, ret. cbn [reads trace].
  match goal with
  | |- context [structureAnalysis ?f ?a ?t ?s] =>
      destruct (structureAnalysis_catches f a t s) as [e ->]
  end.
  exists e. cbn [reads trace]. rewrite <- !app_assoc. reflexivity.
Qed.

(** The entry point, case by case. *)
Lemma analyzeWithAI_run content provider analysisType customPrompt st :
  analyzeWithAI toLowerCase env clock transport content provider analysisType
    customPrompt st =
    if negb (truthy (VStr content)) || (length (trim content) =? 0)%nat
    then failed provider no_content (entered clock st)
    else if (length content <? 50)%nat
    then failed provider too_short (entered clock st)
    else
      match dispatch toLowerCase env transport content provider
              (default (lit "general") analysisType) customPrompt (entered clock st)
      with
      | (Throw e, st') => failed provider e st'
      | (Ok res, st') =>
          complete toLowerCase clock (clock (reads st)) content provider
            (default (lit "general") analysisType) res st'
      end.
Proof.
  unfold analyzeWithAI, bind, try_catch, Date_now, logger, emit, throw.
  fold (entered clock st). rewrite validate_run.
  destruct (negb (truthy (VStr content)) || (length (trim content) =? 0)%nat);
    [reflexivity|].
  destruct (length content <? 50)%nat; [reflexivity|].
  destruct (dispatch _ _ _ _ _ _ _ _) as [[res|e] st']; [|reflexivity].
  destruct (complete_run (clock (reads st)) content provider
              (default (lit "general") analysisType) res st') as [e ->].
  reflexivity.
Qed.

(** The [switch]: a recognised label tests its credential and hands
    over to its adapter. *)
Lemma dispatch_selected p content provider analysisType customPrompt st :
  toLowerCase provider = selector p ->
  dispatch toLowerCase env transport content provider analysisType customPrompt st =
    if truthy (process_env env (credential p))
    then adapter env transport p content analysisType customPrompt st
    else (Throw (not_configured p), st).
Proof.
  intros H. unfold dispatch. rewrite H.
  destruct p; unfold selector, credential, adapter; cbv beta iota;
    repeat match goal with
      | |- context [str_eqb (lit ?a) (lit ?b)] =>
          let v := eval vm_compute in (str_eqb (lit a) (lit b)) in
          change (str_eqb (lit a) (lit b)) with v
      end;
    cbv iota; unfold bind, when, throw, ret;
    destruct (truthy (process_env env _)); reflexivity.
Qed.

(** The [default] case. *)
Lemma dispatch_default content provider analysisType customPrompt st :
  (forall p, toLowerCase provider <> selector p) ->
  dispatch toLowerCase env transport content provider analysisType customPrompt st =
    (Throw (unsupported provider), st).
Proof.
  intros H. unfold dispatch.
  pose proof (str_eqb_neq _ _ (H Claude)) as H1.
  pose proof (str_eqb_neq _ _ (H OpenAI)) as H2.
  pose proof (str_eqb_neq _ _ (H Gemini)) as H3.
  unfold selector in H1, H2, H3. rewrite H1, H2, H3.
  reflexivity.
Qed.

(** A label is recognised or it is not. *)
Lemma selector_cases provider :
  (exists p, toLowerCase provider = selector p)
  \/ (forall p, toLowerCase provider <> selector p).
Proof.
  destruct (str_eqb (toLowerCase provider) (selector Claude)) eqn:E1;
    [apply str_eqb_eq in E1; eauto|].
  destruct (str_eqb (toLowerCase provider) (selector OpenAI)) eqn:E2;
    [apply str_eqb_eq in E2; eauto|].
  destruct (str_eqb (toLowerCase provider) (selector Gemini)) eqn:E3;
    [apply str_eqb_eq in E3; eauto|].
  right. intros [] H; apply str_eqb_eq in H; congruence.
Qed.

Lemma dispatch_throws content provider analysisType customPrompt st e st' :
  dispatch toLowerCase env transport content provider analysisType customPrompt st
    = (Throw e, st') ->
  dispatch_error provider e.
Proof.
  destruct (selector_cases provider) as [[p Hp]|Hp].
  - rewrite (dispatch_selected p) by exact Hp.
    destruct (truthy (process_env env (credential p))).
    + destruct (adapter_run env transport p content analysisType customPrompt st)
        as (text & outcome & logs & _ & -> & _ & Hout).
      intros [= -> _]. destruct Hout as [[m ->]| ->]; constructor.
    + intros [= <- _]. constructor.
  - rewrite dispatch_default by exact Hp. intros [= <- _]. constructor.
Qed.

Lemma no_content_not_too_short : no_content <> too_short.
Proof. intros H. vm_compute in H. discriminate H. Qed.

(** None of them is one of the two validation errors. *)
Lemma dispatch_error_not_validation provider e :
  dispatch_error provider e -> e <> no_content /\ e <> too_short.
Proof.
  intros [p| |p m|]; split; try destruct p; intros H; vm_compute in H;
    discriminate H.
Qed.

End EntryFacts.

(* ===================================================================== *)
(** ** Content validation *)
(* ===================================================================== *)

(** The boundary of the length check, and a long run of spaces. *)
Example validation_at_49_50_51 :
  fst (validate (repeat 97%N 49) start) = Throw too_short
  /\ fst (validate (repeat 97%N 50) start) = Ok tt
  /\ fst (validate (repeat 97%N 51) start) = Ok tt
  /\ fst (validate (repeat 32%N 60) start) = Throw no_content
  /\ fst (validate (repeat 0x3000%N 3) start) = Throw no_content.
Proof. repeat split; vm_compute; reflexivity. Qed.

(** C1: content that is empty or only whitespace is rejected with the
    empty-content error whatever its length, so before the length check;
    content that is not blank is rejected as too short exactly when it has
    fewer than 50 code units; and content that is not blank and has 50 or
    more passes validation, the run going on with the dispatch. *)
Theorem validation_outcomes :
  forall toLowerCase env clock transport
         (content provider : jsstring) (analysisType customPrompt : option jsstring)
         (st : State),
    (trim content = [] <->
       analyzeWithAI toLowerCase env clock transport content provider
         analysisType customPrompt st
       = failed provider no_content (entered clock st))
    /\ (trim content <> [] /\ length content < 50 <->
          analyzeWithAI toLowerCase env clock transport content provider
            analysisType customPrompt st
          = failed provider too_short (entered clock st))
    /\ (trim content <> [] /\ 50 <= length content <->
          fst (analyzeWithAI toLowerCase env clock transport content provider
                 analysisType customPrompt st) <> Throw no_content
          /\ fst (analyzeWithAI toLowerCase env clock transport content provider
                    analysisType customPrompt st) <> Throw too_short).
Proof.
  intros toLowerCase env clock transport content provider analysisType
    customPrompt st.
  rewrite analyzeWithAI_run.
  pose proof (blank_guard content) as Hblank.
  destruct (negb (truthy (VStr content)) || (length (trim content) =? 0)%nat).
  { assert (Ht : trim content = []) by (apply Hblank; reflexivity).
    split; [tauto|]. split.
    - split; [tauto|]. intros H. apply (f_equal fst) in H.
      cbn [failed fst] in H. exfalso. apply no_content_not_too_short. congruence.
    - split; [tauto|]. cbn [failed fst]. intros [H _]. contradiction H. reflexivity. }
  assert (Ht : trim content <> []).
  { intros H. apply Hblank in H. discriminate H. }
  destruct (length content <? 50)%nat eqn:Hlen.
  { apply Nat.ltb_lt in Hlen. split.
    - split; [contradiction|]. intros H. apply (f_equal fst) in H.
      cbn [failed fst] in H. exfalso. apply no_content_not_too_short. congruence.
    - split; [tauto|]. split; [lia|]. cbn [failed fst].
      intros [_ H]. contradiction H. reflexivity. }
  apply Nat.ltb_ge in Hlen.
  assert (Hout :
    fst (let '(r, st') :=
           dispatch toLowerCase env transport content provider
             (default (lit "general") analysisType) customPrompt (entered clock st) in
         match r with
         | Ok res =>
             complete toLowerCase clock (clock (reads st)) content provider
               (default (lit "general") analysisType) res st'
         | Throw e => failed provider e st'
         end) <> Throw no_content
    /\ fst (let '(r, st') :=
              dispatch toLowerCase env transport content provider
                (default (lit "general") analysisType) customPrompt (entered clock st) in
            match r with
            | Ok res =>
                complete toLowerCase clock (clock (reads st)) content provider
                  (default (lit "general") analysisType) res st'
            | Throw e => failed provider e st'
            end) <> Throw too_short).
  { destruct (dispatch _ _ _ _ _ _ _ _) as [[res|e] st'] eqn:Hd.
    - destruct (complete_run toLowerCase clock (clock (reads st)) content provider
                  (default (lit "general") analysisType) res st') as [e ->].
      split; discriminate.
    - apply dispatch_throws in Hd.
      destruct (dispatch_error_not_validation _ _ Hd) as [H1 H2].
      cbn [failed fst]. split; congruence. }
  split; [|split].
  - split; [contradiction|]. intros H. destruct Hout as [Hout _].
    rewrite H in Hout. contradiction Hout. reflexivity.
  - split; [lia|]. intros H. destruct Hout as [_ Hout].
    rewrite H in Hout. contradiction Hout. reflexivity.
  - split; [intros _; exact Hout|auto].
Qed.

(* ===================================================================== *)
(** ** Dispatch and credentials *)
(* ===================================================================== *)

Lemma posts_app a b : posts (a ++ b) = posts a ++ posts b.
Proof.
  induction a as [|[t|req|lvl msg detail] a IH]; cbn [posts app];
    rewrite ?IH; reflexivity.
Qed.

(** A run that ends in the [catch] block right after the start time was
    read has sent nothing. *)
Lemma failed_entered_posts clock provider e st :
  posts (trace (snd (failed provider e (entered clock st)))) = posts (trace st).
Proof.
  cbn [failed entered snd trace reads]. rewrite !posts_app. cbn [posts].
  rewrite !app_nil_r. reflexivity.
Qed.

(** C2: for each of the three providers, when the credential of the
    selected provider is absent (or empty) no request is sent, and for
    content that passes validation the call fails with that provider's
    not-configured error: the test sits in the provider's own case of the
    dispatch, before its adapter is called. *)
Theorem missing_credential_short_circuits :
  forall toLowerCase env clock transport (p : ProviderId)
         (content provider : jsstring) (analysisType customPrompt : option jsstring)
         (st : State),
    toLowerCase provider = selector p ->
    truthy (process_env env (credential p)) = false ->
    posts (trace (snd (analyzeWithAI toLowerCase env clock transport content
                         provider analysisType customPrompt st)))
      = posts (trace st)
    /\ (trim content <> [] -> 50 <= length content ->
        analyzeWithAI toLowerCase env clock transport content provider
          analysisType customPrompt st
        = failed provider (not_configured p) (entered clock st)).
Proof.
  intros toLowerCase env clock transport p content provider analysisType
    customPrompt st Hsel Hkey.
  rewrite analyzeWithAI_run.
  rewrite (dispatch_selected toLowerCase env transport p) by exact Hsel.
  rewrite Hkey.
  pose proof (blank_guard content) as Hblank.
  destruct (negb (truthy (VStr content)) || (length (trim content) =? 0)%nat).
  { split; [apply failed_entered_posts|].
    intros Ht. contradiction Ht. apply Hblank. reflexivity. }
  destruct (length content <? 50)%nat eqn:Hlen.
  { split; [apply failed_entered_posts|].
    apply Nat.ltb_lt in Hlen. intros _ H. lia. }
  split; [apply failed_entered_posts|reflexivity].
Qed.

Lemma missing_credential_short_circuits_witness :
  posts (trace (snd (analyzeWithAI asciiLower (delete "GEMINI_API_KEY" all_keys)
                       sample_clock (answers VNull) sample_content
                       (lit "Gemini") None None start))) = []
  /\ analyzeWithAI asciiLower (delete "GEMINI_API_KEY" all_keys) sample_clock
       (answers VNull) sample_content (lit "Gemini") None None start
     = failed (lit "Gemini") (not_configured Gemini) (entered sample_clock start).
Proof.
  destruct (missing_credential_short_circuits asciiLower
              (delete "GEMINI_API_KEY" all_keys) sample_clock
              (answers VNull) Gemini sample_content (lit "Gemini") None None start)
    as [H1 H2].
  - vm_compute. reflexivity.
  - vm_compute. reflexivity.
  - split.
    + exact H1.
    + apply H2.
      * vm_compute. discriminate.
      * vm_compute. lia.
Defined.

(** C5: given content that passes validation, a provider whose lowercase
    form is none of the three labels fails with the unsupported-provider
    error; the run consists of the start reading and the error log line, so
    no adapter ran and no request was sent. *)
Theorem unknown_provider_rejected :
  forall toLowerCase env clock transport
         (content provider : jsstring) (analysisType customPrompt : option jsstring)
         (st : State),
    trim content <> [] -> 50 <= length content ->
    (forall p, toLowerCase provider <> selector p) ->
    analyzeWithAI toLowerCase env clock transport content provider
      analysisType customPrompt st
    = failed provider (unsupported provider) (entered clock st)
    /\ posts (trace (snd (analyzeWithAI toLowerCase env clock transport content
                            provider analysisType customPrompt st)))
       = posts (trace st).
Proof.
  intros toLowerCase env clock transport content provider analysisType
    customPrompt st Ht Hlen Hsel.
  rewrite analyzeWithAI_run.
  rewrite dispatch_default by exact Hsel.
  pose proof (blank_guard content) as Hblank.
  destruct (negb (truthy (VStr content)) || (length (trim content) =? 0)%nat).
  { contradiction Ht. apply Hblank. reflexivity. }
  destruct (length content <? 50)%nat eqn:E.
  { apply Nat.ltb_lt in E. lia. }
  split; [reflexivity|apply failed_entered_posts].
Qed.

Lemma unknown_provider_rejected_witness :
  analyzeWithAI asciiLower all_keys sample_clock (answers VNull) sample_content
    (lit "foo") None None start
  = failed (lit "foo") (unsupported (lit "foo")) (entered sample_clock start)
  /\ posts (trace (snd (analyzeWithAI asciiLower all_keys sample_clock
                          (answers VNull) sample_content (lit "foo") None None
                          start))) = [].
Proof.
  apply (unknown_provider_rejected asciiLower all_keys sample_clock
           (answers VNull) sample_content (lit "foo") None None start).
  - vm_compute. discriminate.
  - vm_compute. lia.
  - intros p. destruct p; vm_compute; discriminate.
Defined.

(* ===================================================================== *)
(** ** The outbound payload *)
(* ===================================================================== *)

Lemma user_text_truncated prompt content :
  user_text prompt (take 50000 content) = user_text prompt content.
Proof.
  unfold user_text. rewrite !substring_from_0, take_take, Nat.min_id.
  reflexivity.
Qed.

Lemma adapter_truncated env transport p content analysisType customPrompt :
  adapter env transport p (take 50000 content) analysisType customPrompt
  = adapter env transport p content analysisType customPrompt.
Proof.
  destruct p; cbn [adapter];
    unfold analyzeWithClaude, analyzeWithOpenAI, analyzeWithGemini;
    rewrite user_text_truncated; reflexivity.
Qed.

Lemma payload_text_request env p text :
  payload_text (request_of env p text) = [text].
Proof. destruct p; reflexivity. Qed.

(** C3: every adapter sends exactly one request, whatever the content; the
    text it carries is the instruction, the marker line and then exactly
    the first 50,000 code units of the content, which is the content itself
    when it has no more than that; nothing else of the content is used, so
    the run on a content and on its truncation coincide. *)
Theorem outbound_document_is_truncated :
  forall env transport (p : ProviderId) (content analysisType : jsstring)
         (customPrompt : option jsstring) (st : State),
    (exists instruction outcome logs,
        ToString (prompt_of analysisType customPrompt) = Ok instruction
        /\ adapter env transport p content analysisType customPrompt st
           = (outcome,
              {| reads := reads st;
                 trace := trace st
                   ++ EvPost (request_of env p
                                (instruction ++ [LF; LF]
                                   ++ lit "Document content:" ++ [LF]
                                   ++ take 50000 content)) :: logs |})
        /\ posts logs = []
        /\ payload_text (request_of env p
                           (instruction ++ [LF; LF]
                              ++ lit "Document content:" ++ [LF]
                              ++ take 50000 content))
           = [instruction ++ [LF; LF] ++ lit "Document content:" ++ [LF]
                ++ take 50000 content])
    /\ substring content 0 50000 = take 50000 content
    /\ length (take 50000 content) = Nat.min 50000 (length content)
    /\ (length content <= 50000 -> take 50000 content = content)
    /\ adapter env transport p (take 50000 content) analysisType customPrompt st
       = adapter env transport p content analysisType customPrompt st.
Proof.
  intros env transport p content analysisType customPrompt st.
  split; [|split; [|split; [|split]]].
  - destruct (adapter_run env transport p content analysisType customPrompt st)
      as (text & outcome & logs & Htext & Hrun & Hlogs & _).
    destruct (user_text_renders analysisType customPrompt content)
      as (instruction & Hp & Htext').
    rewrite Htext' in Htext. injection Htext as <-.
    exists instruction, outcome, logs.
    split; [exact Hp|]. split; [exact Hrun|]. split; [exact Hlogs|].
    apply payload_text_request.
  - apply substring_from_0.
  - apply length_take.
  - intros H. apply take_ge. exact H.
  - rewrite adapter_truncated. reflexivity.
Qed.

(* ===================================================================== *)
(** ** Prompt selection *)
(* ===================================================================== *)

(** An analysis type that the table does not have and [Object.prototype]
    does not define falls back to the general instruction. *)
Lemma prompt_of_unknown analysisType customPrompt :
  customPrompt = None \/ customPrompt = Some [] ->
  own ANALYSIS_PROMPTS analysisType = None ->
  Object_prototype analysisType = VUndefined ->
  prompt_of analysisType customPrompt = VStr general_prompt.
Proof.
  intros Hc Hown Hproto. rewrite prompt_of_table by exact Hc.
  unfold ANALYSIS_PROMPTS_at. rewrite Hown, Hproto. reflexivity.
Qed.

(** An analysis type of the table selects its own block. *)
Lemma prompt_of_known analysisType customPrompt v :
  customPrompt = None \/ customPrompt = Some [] ->
  own ANALYSIS_PROMPTS analysisType = Some v ->
  prompt_of analysisType customPrompt = v.
Proof.
  intros Hc Hown. rewrite prompt_of_table by exact Hc.
  unfold ANALYSIS_PROMPTS_at. rewrite Hown.
  destruct (own_prompt _ _ Hown) as (s & -> & Hs).
  unfold js_or. rewrite Hs. reflexivity.
Qed.

(** C4: the analysis type ["constructor"] is not a key of the table, yet
    the lookup finds the function [Object] that every object literal
    inherits; being truthy it is taken as the prompt, and the instruction
    sent is its source text instead of the general instruction. *)
Theorem inherited_key_is_taken_as_prompt :
  own ANALYSIS_PROMPTS (lit "constructor") = None
  /\ prompt_of (lit "constructor") None = VBuiltin (lit "Object")
  /\ prompt_of (lit "constructor") None <> VStr general_prompt
  /\ List.map payload_text
       (posts (trace (snd (analyzeWithAI asciiLower all_keys sample_clock
                             (answers VNull) sample_content (lit "claude")
                             (Some (lit "constructor")) None start))))
     = [[lit "function Object() { [native code] }" ++ [LF; LF]
           ++ lit "Document content:" ++ [LF] ++ sample_content]].
Proof.
  split; [vm_compute; reflexivity|].
  split; [vm_compute; reflexivity|].
  split; [vm_compute; discriminate|].
  vm_compute. reflexivity.
Qed.

(* ===================================================================== *)
(** ** Failures of the adapters *)
(* ===================================================================== *)

Section FailureFacts.

Variable toLowerCase : jsstring -> jsstring.
Variable env : gmap string jsstring.
Variable clock : nat -> Z.
Variable transport : Request -> JsVal + AxiosFailure.



(** From the dispatch on, a run with a recognised provider and a
    configured credential is the run of the adapter. *)
Lemma analyzeWithAI_adapter p content provider analysisType customPrompt st :
  toLowerCase provider = selector p ->
  truthy (process_env env (credential p)) = true ->
  trim content <> [] -> 50 <= length content ->
  analyzeWithAI toLowerCase env clock transport content provider analysisType
    customPrompt st =
    match adapter env transport p content
            (default (lit "general") analysisType) customPrompt (entered clock st)
    with
    | (Throw e, st') => failed provider e st'
    | (Ok res, st') =>
        complete toLowerCase clock (clock (reads st)) content provider
          (default (lit "general") analysisType) res st'
    end.
Proof.
  intros Hsel Hkey Ht Hlen. rewrite analyzeWithAI_run.
  pose proof (blank_guard content) as Hblank.
  destruct (negb (truthy (VStr content)) || (length (trim content) =? 0)%nat).
  { contradiction Ht. apply Hblank. reflexivity. }
  destruct (length content <? 50)%nat eqn:E.
  { apply Nat.ltb_lt in E. lia. }
  rewrite (dispatch_selected toLowerCase env transport p) by exact Hsel.
  rewrite Hkey. reflexivity.
Qed.

End FailureFacts.




(** The second way an adapter failure can surface: the provider-supplied
    message cannot be rendered, and the [catch] block itself raises. *)
Example unrenderable_message_surfaces_as_type_error :
  gemini_run rejects_unrenderable = Throw cannot_convert.
Proof. vm_compute. reflexivity. Qed.



(* ===================================================================== *)
(** ** The processing time *)
(* ===================================================================== *)

(** The [switch] reads no clock and only appends to the trace. *)
Lemma dispatch_run toLowerCase env transport content provider analysisType
    customPrompt st :
  exists outcome logs,
    dispatch toLowerCase env transport content provider analysisType
      customPrompt st
    = (outcome, {| reads := reads st; trace := trace st ++ logs |}).
Proof.
  destruct (selector_cases toLowerCase provider) as [[p Hp]|Hp].
  - rewrite (dispatch_selected toLowerCase env transport p) by exact Hp.
    destruct (truthy (process_env env (credential p))).
    + destruct (adapter_run env transport p content analysisType customPrompt st)
        as (text & outcome & logs & _ & -> & _).
      eauto.
    + exists (Throw (not_configured p)), []. rewrite app_nil_r.
      destruct st; reflexivity.
  - rewrite dispatch_default by exact Hp.
    exists (Throw (unsupported provider)), []. rewrite app_nil_r.
    destruct st; reflexivity.
Qed.

(** C9, as stated, fails: the clock is read although validation rejects
    the content and no adapter is ever dispatched; a run whose adapter
    fails reads the clock once only, so computes no processing time; and
    in a successful run the reported time is the difference between the
    reading that follows the adapter and the one taken on entry. *)
Lemma start_is_read_before_validation :
  analyzeWithAI asciiLower all_keys sample_clock (answers claude_answer) []
    (lit "claude") None None start
  = (Throw no_content,
     {| reads := 1;
        trace := [EvClock 1000;
                  EvLog LvError (lit "AI analysis failed (claude):")
                    (DThrown no_content)] |})
  /\ (fst (analyzeWithAI asciiLower all_keys sample_clock
             (rejects 503 (lit "overloaded")) sample_content (lit "claude")
             None None start)
      = Throw (service_error Claude (lit "overloaded"))
      /\ List.map kind_of
           (trace (snd (analyzeWithAI asciiLower all_keys sample_clock
                          (rejects 503 (lit "overloaded")) sample_content
                          (lit "claude") None None start)))
         = [ClockRead; Post; LogLine; LogLine])
  /\ (exists r,
         fst (analyzeWithAI asciiLower all_keys sample_clock
                (answers claude_answer) sample_content (lit "claude")
                None None start) = Ok r
         /\ processingTime (metadata r) = lit "10ms"
         /\ List.map kind_of
              (trace (snd (analyzeWithAI asciiLower all_keys sample_clock
                             (answers claude_answer) sample_content
                             (lit "claude") None None start)))
            = [ClockRead; Post; ClockRead; ClockRead; LogLine; LogLine]).
Proof.
  split; [vm_compute; reflexivity|].
  split; [split; vm_compute; reflexivity|].
  eexists. split; [vm_compute; reflexivity|].
  split; vm_compute; reflexivity.
Qed.

(** C9, amended: every run begins by reading the clock, before the content
    is validated; a run that fails, at validation, at the dispatch or in the
    adapter, reads it no further, so no processing time is computed; a run
    that succeeds reads it twice more, and the reported processing time is
    the reading that follows the adapter's return minus the reading taken
    on entry. *)
Theorem processing_time_spans_the_run :
  forall toLowerCase env clock transport
         (content provider : jsstring) (analysisType customPrompt : option jsstring)
         (st : State),
    (exists rest,
        trace (snd (analyzeWithAI toLowerCase env clock transport content
                      provider analysisType customPrompt st))
        = trace st ++ EvClock (clock (reads st)) :: rest)
    /\ match fst (analyzeWithAI toLowerCase env clock transport content
                    provider analysisType customPrompt st) with
       | Throw _ =>
           reads (snd (analyzeWithAI toLowerCase env clock transport content
                         provider analysisType customPrompt st))
           = S (reads st)
       | Ok r =>
           reads (snd (analyzeWithAI toLowerCase env clock transport content
                         provider analysisType customPrompt st))
           = S (S (S (reads st)))
           /\ processingTime (metadata r)
              = decimal (clock (S (reads st)) - clock (reads st)) ++ lit "ms"
           /\ timestamp (metadata r) = clock (S (S (reads st)))
       end.
Proof.
  intros toLowerCase env clock transport content provider analysisType
    customPrompt st.
  rewrite analyzeWithAI_run.
  assert (Hfail : forall e,
             (exists rest,
                 trace (snd (failed provider e (entered clock st)))
                 = trace st ++ EvClock (clock (reads st)) :: rest)
             /\ reads (snd (failed provider e (entered clock st))) = S (reads st)).
  { intros e. cbn [failed entered snd trace reads]. split; [|reflexivity].
    rewrite <- app_assoc. eexists. reflexivity. }
  destruct (negb (truthy (VStr content)) || (length (trim content) =? 0)%nat).
  { cbn [fst failed]. apply Hfail. }
  destruct (length content <? 50)%nat.
  { cbn [fst failed]. apply Hfail. }
  destruct (dispatch_run toLowerCase env transport content provider
              (default (lit "general") analysisType) customPrompt
              (entered clock st)) as (outcome & logs & ->).
  destruct outcome as [res|e].
  - match goal with
    | |- context [complete ?f ?c ?t ?x ?pr ?a ?r ?s] =>
        destruct (complete_run f c t x pr a r s) as [e1 ->]
    end.
    cbn [fst snd entered reads trace metadata processingTime timestamp].
    split; [|auto].
    rewrite <- !app_assoc. eexists. reflexivity.
  - cbn [failed fst snd reads trace entered]. split; [|reflexivity].
    rewrite <- !app_assoc. eexists. reflexivity.
Qed.

(* ===================================================================== *)
(** ** Further properties of the entry point *)
(* ===================================================================== *)

Section RunFacts.

Variable toLowerCase : jsstring -> jsstring.
Variable env : gmap string jsstring.
Variable clock : nat -> Z.
Variable transport : Request -> JsVal + AxiosFailure.

Lemma check_selected p provider :
  toLowerCase provider = selector p ->
  checkServiceAvailability toLowerCase env provider
  = truthy (process_env env (credential p)).
Proof.
  intros H. unfold checkServiceAvailability. rewrite H.
  destruct p; unfold selector, credential; cbv beta iota;
    repeat match goal with
      | |- context [str_eqb (lit ?a) (lit ?b)] =>
          let v := eval vm_compute in (str_eqb (lit a) (lit b)) in
          change (str_eqb (lit a) (lit b)) with v
      end;
    reflexivity.
Qed.

Lemma check_default provider :
  (forall p, toLowerCase provider <> selector p) ->
  checkServiceAvailability toLowerCase env provider = false.
Proof.
  intros H. unfold checkServiceAvailability.
  pose proof (str_eqb_neq _ _ (H Claude)) as H1.
  pose proof (str_eqb_neq _ _ (H OpenAI)) as H2.
  pose proof (str_eqb_neq _ _ (H Gemini)) as H3.
  unfold selector in H1, H2, H3. rewrite H1, H2, H3. reflexivity.
Qed.

(** A truthy credential is a configured, non-empty string. *)
Lemma truthy_credential name :
  truthy (process_env env name) = true <->
  exists key, env !! name = Some key /\ key <> [].
Proof.
  unfold process_env. destruct (env !! name) as [key|]; cbn [truthy].
  - destruct key as [|c key].
    + split; [discriminate|]. intros (k & [= <-] & H). contradiction.
    + split; [|reflexivity]. intros _. eexists. split; [reflexivity|discriminate].
  - split; [discriminate|]. intros (k & H & _). discriminate.
Qed.

(** The run of a valid content with a recognised, configured provider:
    what it sends and how it ends. *)
Lemma configured_run p content provider analysisType customPrompt st :
  toLowerCase provider = selector p ->
  truthy (process_env env (credential p)) = true ->
  trim content <> [] -> 50 <= length content ->
  exists text outcome logs,
    user_text (prompt_of (default (lit "general") analysisType) customPrompt)
      content = Ok text
    /\ adapter env transport p content (default (lit "general") analysisType)
         customPrompt (entered clock st)
       = (outcome,
          {| reads := S (reads st);
             trace := trace st
                        ++ EvClock (clock (reads st))
                        :: EvPost (request_of env p text) :: logs |})
    /\ posts logs = []
    /\ posts (trace (snd (analyzeWithAI toLowerCase env clock transport content
                            provider analysisType customPrompt st)))
       = posts (trace st) ++ [request_of env p text].
Proof.
  intros Hsel Hkey Ht Hlen.
  rewrite (analyzeWithAI_adapter toLowerCase env clock transport p)
    by assumption.
  destruct (adapter_run env transport p content
              (default (lit "general") analysisType) customPrompt
              (entered clock st))
    as (text & outcome & logs & Htext & Hrun & Hlogs & _).
  exists text, outcome, logs. split; [exact Htext|].
  cbn [entered reads trace] in Hrun. rewrite <- app_assoc in Hrun.
  cbn [app] in Hrun. split; [exact Hrun|]. split; [exact Hlogs|].
  rewrite Hrun. destruct outcome as [res|e].
  - match goal with
    | |- context [complete ?f ?c ?t ?x ?pr ?a ?r ?s] =>
        destruct (complete_run f c t x pr a r s) as [e1 ->]
    end.
    cbn [snd trace]. rewrite !posts_app. cbn [posts]. rewrite Hlogs.
    cbn [app]. rewrite app_nil_r. reflexivity.
  - cbn [failed snd trace]. rewrite !posts_app. cbn [posts]. rewrite Hlogs.
    cbn [app]. rewrite app_nil_r. reflexivity.
Qed.

(** Any other run sends nothing. *)
Lemma unconfigured_run content provider analysisType customPrompt st :
  (trim content = [] \/ length content < 50
   \/ (forall p, toLowerCase provider <> selector p)
   \/ (exists p, toLowerCase provider = selector p
                 /\ truthy (process_env env (credential p)) = false)) ->
  posts (trace (snd (analyzeWithAI toLowerCase env clock transport content
                       provider analysisType customPrompt st)))
  = posts (trace st)
  /\ exists e,
       analyzeWithAI toLowerCase env clock transport content provider
         analysisType customPrompt st
       = failed provider e (entered clock st).
Proof.
  intros H. rewrite analyzeWithAI_run.
  pose proof (blank_guard content) as Hblank.
  destruct (negb (truthy (VStr content)) || (length (trim content) =? 0)%nat).
  { split; [apply failed_entered_posts|eauto]. }
  destruct (length content <? 50)%nat eqn:Hlen.
  { split; [apply failed_entered_posts|eauto]. }
  apply Nat.ltb_ge in Hlen.
  destruct H as [H|[H|[H|(p & Hsel & Hkey)]]].
  - apply Hblank in H. discriminate H.
  - lia.
  - rewrite dispatch_default by exact H.
    split; [apply failed_entered_posts|eauto].
  - rewrite (dispatch_selected toLowerCase env transport p) by exact Hsel.
    rewrite Hkey. split; [apply failed_entered_posts|eauto].
Qed.

(** The two kinds of run cover every case. *)
Lemma run_cases content provider :
  (trim content <> [] /\ 50 <= length content
   /\ exists p, toLowerCase provider = selector p
                /\ truthy (process_env env (credential p)) = true)
  \/ (trim content = [] \/ length content < 50
      \/ (forall p, toLowerCase provider <> selector p)
      \/ (exists p, toLowerCase provider = selector p
                    /\ truthy (process_env env (credential p)) = false)).
Proof.
  destruct (trim content) as [|c t] eqn:Ht; [right; left; reflexivity|].
  destruct (Nat.lt_ge_cases (length content) 50) as [Hlen|Hlen];
    [right; right; left; exact Hlen|].
  destruct (selector_cases toLowerCase provider) as [[p Hp]|Hp];
    [|right; right; right; left; exact Hp].
  destruct (truthy (process_env env (credential p))) eqn:Hkey.
  - left. split; [discriminate|]. split; [exact Hlen|]. eauto.
  - right. right. right. right. eauto.
Qed.

End RunFacts.

(** X1: for content that passes validation, [checkServiceAvailability]
    tells what [analyzeWithAI] will do with the same provider label: when it
    answers [true] the run sends a request, and when it answers [false] the
    run sends none and fails with the not-configured error of the provider
    the label names or, when it names none, with the unsupported-provider
    error. *)
Theorem availability_agrees_with_dispatch :
  forall toLowerCase env clock transport
         (content provider : jsstring) (analysisType customPrompt : option jsstring)
         (st : State),
    trim content <> [] -> 50 <= length content ->
    (checkServiceAvailability toLowerCase env provider = true ->
     exists req,
       posts (trace (snd (analyzeWithAI toLowerCase env clock transport content
                            provider analysisType customPrompt st)))
       = posts (trace st) ++ [req])
    /\ (checkServiceAvailability toLowerCase env provider = false ->
        posts (trace (snd (analyzeWithAI toLowerCase env clock transport content
                             provider analysisType customPrompt st)))
        = posts (trace st)
        /\ ((exists p,
                toLowerCase provider = selector p
                /\ analyzeWithAI toLowerCase env clock transport content provider
                     analysisType customPrompt st
                   = failed provider (not_configured p) (entered clock st))
            \/ ((forall p, toLowerCase provider <> selector p)
                /\ analyzeWithAI toLowerCase env clock transport content provider
                     analysisType customPrompt st
                   = failed provider (unsupported provider) (entered clock st)))).
Proof.
  intros toLowerCase env clock transport content provider analysisType
    customPrompt st Ht Hlen.
  destruct (selector_cases toLowerCase provider) as [[p Hp]|Hp].
  - rewrite (check_selected toLowerCase env p provider Hp). split.
    + intros Hkey.
      destruct (configured_run toLowerCase env clock transport p content
                  provider analysisType customPrompt st Hp Hkey Ht Hlen)
        as (text & _ & _ & _ & _ & _ & Hposts).
      eauto.
    + intros Hkey.
      destruct (unconfigured_run toLowerCase env clock transport content
                  provider analysisType customPrompt st) as [Hposts _];
        [right; right; right; eauto|].
      split; [exact Hposts|]. left. exists p. split; [exact Hp|].
      rewrite analyzeWithAI_run.
      rewrite (dispatch_selected toLowerCase env transport p) by exact Hp.
      rewrite Hkey. pose proof (blank_guard content) as Hblank.
      destruct (negb (truthy (VStr content)) || (length (trim content) =? 0)%nat).
      { contradiction Ht. apply Hblank. reflexivity. }
      destruct (length content <? 50)%nat eqn:E;
        [apply Nat.ltb_lt in E; lia|reflexivity].
  - rewrite (check_default toLowerCase env provider Hp).
    split; [discriminate|]. intros _.
    destruct (unconfigured_run toLowerCase env clock transport content
                provider analysisType customPrompt st) as [Hposts _];
      [right; right; left; exact Hp|].
    split; [exact Hposts|]. right. split; [exact Hp|].
    rewrite analyzeWithAI_run. rewrite dispatch_default by exact Hp.
    pose proof (blank_guard content) as Hblank.
    destruct (negb (truthy (VStr content)) || (length (trim content) =? 0)%nat).
    { contradiction Ht. apply Hblank. reflexivity. }
    destruct (length content <? 50)%nat eqn:E;
      [apply Nat.ltb_lt in E; lia|reflexivity].
Qed.

Lemma availability_agrees_with_dispatch_witness :
  checkServiceAvailability asciiLower (delete "OPENAI_API_KEY" all_keys)
    (lit "OpenAI") = false
  /\ posts (trace (snd (analyzeWithAI asciiLower
                          (delete "OPENAI_API_KEY" all_keys) sample_clock
                          (answers VNull) sample_content (lit "OpenAI")
                          None None start))) = [].
Proof.
  split; [vm_compute; reflexivity|].
  refine (proj1 (proj2 (availability_agrees_with_dispatch asciiLower
            (delete "OPENAI_API_KEY" all_keys) sample_clock (answers VNull)
            sample_content (lit "OpenAI") None None start _ _) _)).
  - vm_compute. discriminate.
  - vm_compute. lia.
  - vm_compute. reflexivity.
Defined.

(** X2: a run of [analyzeWithAI] sends at most one request, whatever
    happens: there is no retry and no second provider. The request, when
    there is one, carries a single text and a timeout of 60 seconds. *)
Theorem at_most_one_request :
  forall toLowerCase env clock transport
         (content provider : jsstring) (analysisType customPrompt : option jsstring)
         (st : State),
    posts (trace (snd (analyzeWithAI toLowerCase env clock transport content
                         provider analysisType customPrompt st)))
    = posts (trace st)
    \/ exists req text,
         posts (trace (snd (analyzeWithAI toLowerCase env clock transport
                              content provider analysisType customPrompt st)))
         = posts (trace st) ++ [req]
         /\ payload_text req = [text]
         /\ timeout req = 60000%Z.
Proof.
  intros toLowerCase env clock transport content provider analysisType
    customPrompt st.
  destruct (run_cases toLowerCase env content provider)
    as [(Ht & Hlen & p & Hp & Hkey)|H].
  - right.
    destruct (configured_run toLowerCase env clock transport p content
                provider analysisType customPrompt st Hp Hkey Ht Hlen)
      as (text & _ & _ & _ & _ & _ & Hposts).
    exists (request_of env p text), text. split; [exact Hposts|].
    split; [apply payload_text_request|]. destruct p; reflexivity.
  - left. apply unconfigured_run. exact H.
Qed.

(** X3: the request a run sends carries the configured, non-empty
    credential of the provider the label selects: for Claude in the
    [x-api-key] header and after [Bearer] in [Authorization], for OpenAI
    after [Bearer] in [Authorization], for Gemini at the end of the URL. *)
Theorem request_carries_the_credential :
  forall toLowerCase env clock transport
         (content provider : jsstring) (analysisType customPrompt : option jsstring)
         (st : State) (req : Request),
    posts (trace (snd (analyzeWithAI toLowerCase env clock transport content
                         provider analysisType customPrompt st)))
    = posts (trace st) ++ [req] ->
    exists p key,
      toLowerCase provider = selector p
      /\ env !! credential p = Some key
      /\ key <> []
      /\ match p with
         | Claude =>
             In ("x-api-key", VStr key) (headers req)
             /\ In ("Authorization", VStr (lit "Bearer " ++ key)) (headers req)
         | OpenAI =>
             In ("Authorization", VStr (lit "Bearer " ++ key)) (headers req)
         | Gemini =>
             url req
             = lit "https://generativelanguage.googleapis.com/v1beta/models/gemini-pro:generateContent?key="
                 ++ key
         end.
Proof.
  intros toLowerCase env clock transport content provider analysisType
    customPrompt st req Hreq.
  destruct (run_cases toLowerCase env content provider)
    as [(Ht & Hlen & p & Hp & Hkey)|H].
  - destruct (configured_run toLowerCase env clock transport p content
                provider analysisType customPrompt st Hp Hkey Ht Hlen)
      as (text & _ & _ & _ & _ & _ & Hposts).
    rewrite Hposts in Hreq. apply app_inj_tail in Hreq as [_ <-].
    apply truthy_credential in Hkey as (key & Henv & Hne).
    exists p, key. split; [exact Hp|]. split; [exact Henv|].
    split; [exact Hne|].
    destruct p; cbn [request_of credential] in *;
      unfold claude_request, openai_request, gemini_request, env_text,
        process_env; cbn [headers url]; unfold jsstring in *;
      rewrite Henv; cbn [In]; auto.
  - destruct (unconfigured_run toLowerCase env clock transport content
                provider analysisType customPrompt st H) as [Hposts _].
    rewrite Hposts in Hreq. apply (f_equal (@length Request)) in Hreq.
    rewrite length_app in Hreq. cbn [length] in Hreq. lia.
Qed.

Lemma request_carries_the_credential_witness :
  exists p key,
    asciiLower (lit "GEMINI") = selector p
    /\ all_keys !! credential p = Some key
    /\ key <> []
    /\ match p with
       | Claude =>
           In ("x-api-key", VStr key)
             (headers (gemini_request all_keys
                         (general_prompt ++ [LF; LF] ++ lit "Document content:"
                            ++ [LF] ++ sample_content)))
           /\ In ("Authorization", VStr (lit "Bearer " ++ key))
                (headers (gemini_request all_keys
                            (general_prompt ++ [LF; LF] ++ lit "Document content:"
                               ++ [LF] ++ sample_content)))
       | OpenAI =>
           In ("Authorization", VStr (lit "Bearer " ++ key))
             (headers (gemini_request all_keys
                         (general_prompt ++ [LF; LF] ++ lit "Document content:"
                            ++ [LF] ++ sample_content)))
       | Gemini =>
           url (gemini_request all_keys
                  (general_prompt ++ [LF; LF] ++ lit "Document content:"
                     ++ [LF] ++ sample_content))
           = lit "https://generativelanguage.googleapis.com/v1beta/models/gemini-pro:generateContent?key="
               ++ key
       end.
Proof.
  apply (request_carries_the_credential asciiLower all_keys sample_clock
           (answers no_candidates) sample_content (lit "GEMINI") None None
           start).
  vm_compute. reflexivity.
Defined.

(** X4: the last thing a run of [analyzeWithAI] does is to log its outcome:
    a failing run ends with the error-level line that carries exactly the
    error it rethrows, a successful run with the info-level completion
    line. *)
Theorem run_ends_with_its_log :
  forall toLowerCase env clock transport
         (content provider : jsstring) (analysisType customPrompt : option jsstring)
         (st : State),
    match fst (analyzeWithAI toLowerCase env clock transport content provider
                 analysisType customPrompt st) with
    | Throw e =>
        last (trace (snd (analyzeWithAI toLowerCase env clock transport content
                            provider analysisType customPrompt st)))
        = Some (EvLog LvError
                  (lit "AI analysis failed (" ++ provider ++ lit "):")
                  (DThrown e))
    | Ok _ =>
        exists ms,
          last (trace (snd (analyzeWithAI toLowerCase env clock transport
                              content provider analysisType customPrompt st)))
          = Some (EvLog LvInfo
                    (lit "AI analysis completed: " ++ provider ++ lit " ("
                       ++ decimal ms ++ lit "ms)") DNone)
    end.
Proof.
  intros toLowerCase env clock transport content provider analysisType
    customPrompt st.
  rewrite analyzeWithAI_run.
  assert (Hfail : forall e st',
             last (trace (snd (failed provider e st')))
             = Some (EvLog LvError
                       (lit "AI analysis failed (" ++ provider ++ lit "):")
                       (DThrown e))).
  { intros e st'. cbn [failed snd trace]. apply last_snoc. }
  destruct (negb (truthy (VStr content)) || (length (trim content) =? 0)%nat);
    [apply Hfail|].
  destruct (length content <? 50)%nat; [apply Hfail|].
  destruct (dispatch _ _ _ _ _ _ _ _) as [[res|e] st']; [|apply Hfail].
  destruct (complete_run toLowerCase clock (clock (reads st)) content provider
              (default (lit "general") analysisType) res st') as [e ->].
  cbn [fst snd trace]. eexists.
  change [EvClock (clock (reads st')); EvClock (clock (S (reads st')));
          EvLog LvWarn (lit "Failed to structure analysis output:") (DThrown e);
          EvLog LvInfo
            (lit "AI analysis completed: " ++ provider ++ lit " (" ++
             decimal (clock (reads st') - clock (reads st)) ++ lit "ms)") DNone]
    with ([EvClock (clock (reads st')); EvClock (clock (S (reads st')));
           EvLog LvWarn (lit "Failed to structure analysis output:") (DThrown e)]
          ++ [EvLog LvInfo
                (lit "AI analysis completed: " ++ provider ++ lit " (" ++
                 decimal (clock (reads st') - clock (reads st)) ++ lit "ms)")
                DNone]).
  rewrite app_assoc. apply last_snoc.
Qed.

(** X5: what a successful run returns: the adapter's result of a
    recognised and configured provider, for content that passed
    validation; [contentLength] is the length of the whole content, also
    beyond the 50,000 code units that were sent; the analysis type recorded
    is ['general'] when none was given; and the structured analysis is the
    raw analysis as [summary] with four empty lists. *)
Theorem successful_run_shape :
  forall toLowerCase env clock transport
         (content provider : jsstring) (requested customPrompt : option jsstring)
         (st st' : State) (r : AnalysisResult),
    analyzeWithAI toLowerCase env clock transport content provider
      requested customPrompt st = (Ok r, st') ->
    trim content <> [] /\ 50 <= length content
    /\ (exists p st1,
           toLowerCase provider = selector p
           /\ truthy (process_env env (credential p)) = true
           /\ adapter env transport p content
                (default (lit "general") requested) customPrompt
                (entered clock st) = (Ok (result r), st1))
    /\ contentLength (metadata r) = length content
    /\ analysisType (metadata r) = default (lit "general") requested
    /\ structuredAnalysis r
       = {| summary := analysis (result r); findings := VArr [];
            recommendations := VArr []; risks := VArr [];
            compliance := VArr [] |}.
Proof.
  intros toLowerCase env clock transport content provider requested
    customPrompt st st' r Hrun.
  destruct (run_cases toLowerCase env content provider)
    as [(Ht & Hlen & p & Hp & Hkey)|H].
  - split; [exact Ht|]. split; [exact Hlen|].
    rewrite (analyzeWithAI_adapter toLowerCase env clock transport p)
      in Hrun by assumption.
    destruct (adapter env transport p content
                (default (lit "general") requested) customPrompt
                (entered clock st)) as [[res|e] st1] eqn:Had;
      [|discriminate Hrun].
    destruct (complete_run toLowerCase clock (clock (reads st)) content provider
                (default (lit "general") requested) res st1) as [e He].
    rewrite He in Hrun. injection Hrun as <- _.
    cbn [result metadata contentLength analysisType structuredAnalysis].
    split; [exists p, st1; auto|]. auto.
  - destruct (unconfigured_run toLowerCase env clock transport content
                provider requested customPrompt st H) as [_ [e He]].
    rewrite He in Hrun. discriminate Hrun.
Qed.

Lemma successful_run_shape_witness :
  exists r st',
    analyzeWithAI asciiLower all_keys sample_clock (answers claude_answer)
      sample_content (lit "Claude") None None start = (Ok r, st')
    /\ contentLength (metadata r) = 66
    /\ analysisType (metadata r) = lit "general"
    /\ summary (structuredAnalysis r) = VStr sample_answer.
Proof.
  eexists ?[r], ?[st'].
  assert (Hrun : analyzeWithAI asciiLower all_keys sample_clock
                   (answers claude_answer) sample_content (lit "Claude")
                   None None start = (Ok ?r, ?st'))
    by (vm_compute; reflexivity).
  split; [exact Hrun|].
  destruct (successful_run_shape asciiLower all_keys sample_clock
              (answers claude_answer) sample_content (lit "Claude") None None
              start _ _ Hrun) as (_ & _ & _ & H1 & H2 & H3).
  split; [exact H1|]. split; [exact H2|]. rewrite H3. reflexivity.
Defined.

(* ===================================================================== *)
(** ** Further properties of the adapters *)
(* ===================================================================== *)

Ltac adapter_step :=
  match goal with
  | |- context [match ?r with Ok _ => _ | Throw _ => _ end] =>
      lazymatch r with
      | ToString (service_message _) => fail
      | _ => destruct r eqn:?
      end
  | |- context [match ?r with inl _ => _ | inr _ => _ end] => destruct r eqn:?
  | |- context [if ?b then _ else _] => destruct b eqn:?
  end.

(** What every successful adapter result looks like. *)
Lemma adapter_success env transport p content analysisType customPrompt st res st' :
  adapter env transport p content analysisType customPrompt st = (Ok res, st') ->
  provider res = selector p
  /\ status res = lit "success"
  /\ (exists counted, tokensUsed res = js_or counted (VNum 0))
  /\ (p = Gemini -> truthy (analysis res) = true).
Proof.
  destruct p; cbn [adapter];
    unfold analyzeWithClaude, analyzeWithOpenAI, analyzeWithGemini,
      try_catch, bind, lift, axios_post, when, throw, ret;
    repeat adapter_step;
    try (rewrite service_failure_run;
         destruct (ToString (service_message _)); discriminate);
    intros [= <- <-]; cbn [provider status tokensUsed analysis];
    (split; [reflexivity|]); (split; [reflexivity|]);
    (split; [eexists; reflexivity|]); try discriminate.
  intros _.
  match goal with
  | H : negb ?b = false |- ?b = true => destruct b; [reflexivity|discriminate H]
  end.
Qed.

(** X6: the [tokensUsed] of a successful adapter result is never
    [undefined], [null], [NaN] or an empty string: it is a truthy value or
    the number 0, because each adapter ends the count with [|| 0]; and the
    result names its provider by the label of the dispatch and has the
    status ['success']. *)
Theorem tokens_used_is_never_missing :
  forall env transport (p : ProviderId) (content analysisType : jsstring)
         (customPrompt : option jsstring) (st st' : State) (res : ProviderResult),
    adapter env transport p content analysisType customPrompt st = (Ok res, st') ->
    (truthy (tokensUsed res) = true \/ tokensUsed res = VNum 0)
    /\ provider res = selector p
    /\ status res = lit "success".
Proof.
  intros env transport p content analysisType customPrompt st st' res H.
  destruct (adapter_success _ _ _ _ _ _ _ _ _ H)
    as (Hp & Hs & (counted & Hc) & _).
  split; [|auto]. rewrite Hc. unfold js_or.
  destruct (truthy counted) eqn:E; auto.
Qed.

Lemma tokens_used_is_never_missing_witness :
  exists res st',
    analyzeWithClaude all_keys (answers claude_answer) sample_content
      (lit "general") None start = (Ok res, st')
    /\ ((truthy (tokensUsed res) = true \/ tokensUsed res = VNum 0)
        /\ provider res = lit "claude"
        /\ status res = lit "success").
Proof.
  eexists ?[res], ?[st'].
  assert (H : adapter all_keys (answers claude_answer) Claude sample_content
                (lit "general") None start = (Ok ?res, ?st'))
    by (vm_compute; reflexivity).
  split; [exact H|].
  exact (tokens_used_is_never_missing _ _ _ _ _ _ _ _ _ H).
Defined.

(** X7: a successful result of the Gemini adapter always carries a truthy
    analysis: an answer from which no text can be read is never returned as
    a success. *)
Theorem gemini_success_has_text :
  forall env transport (content analysisType : jsstring)
         (customPrompt : option jsstring) (st st' : State) (res : ProviderResult),
    analyzeWithGemini env transport content analysisType customPrompt st
    = (Ok res, st') ->
    truthy (analysis res) = true.
Proof.
  intros env transport content analysisType customPrompt st st' res H.
  apply (adapter_success env transport Gemini) in H.
  apply H. reflexivity.
Qed.

Lemma gemini_success_has_text_witness :
  exists res st',
    analyzeWithGemini all_keys (answers gemini_answer) sample_content
      (lit "general") None start = (Ok res, st')
    /\ truthy (analysis res) = true.
Proof.
  eexists ?[res], ?[st'].
  assert (H : analyzeWithGemini all_keys (answers gemini_answer) sample_content
                (lit "general") None start = (Ok ?res, ?st'))
    by (vm_compute; reflexivity).
  split; [exact H|].
  exact (gemini_success_has_text _ _ _ _ _ _ _ _ H).
Defined.

(* ===================================================================== *)
(** ** Further properties of the prompt selection *)
(* ===================================================================== *)

(** X8: a custom prompt that is not empty is sent as it is, whatever the
    analysis type and the provider: the text of the request is the custom
    prompt, the marker and the truncated document. *)
Theorem custom_prompt_is_sent_verbatim :
  forall env transport (p : ProviderId) (content analysisType custom : jsstring)
         (st : State),
    custom <> [] ->
    posts (trace (snd (adapter env transport p content analysisType
                         (Some custom) st)))
    = posts (trace st)
        ++ [request_of env p
              (custom ++ [LF; LF] ++ lit "Document content:" ++ [LF]
                 ++ take 50000 content)].
Proof.
  intros env transport p content analysisType custom st Hne.
  destruct (adapter_run env transport p content analysisType (Some custom) st)
    as (text & outcome & logs & Htext & -> & Hlogs & _).
  pose proof (prompt_of_custom analysisType custom Hne) as E.
  unfold jsstring in *. rewrite E in Htext.
  unfold user_text in Htext. cbn [ToString] in Htext.
  rewrite substring_from_0 in Htext. injection Htext as <-.
  cbn [snd trace]. rewrite posts_app. cbn [posts]. rewrite Hlogs.
  reflexivity.
Qed.

Lemma custom_prompt_is_sent_verbatim_witness :
  List.map payload_text
    (posts (trace (snd (analyzeWithOpenAI all_keys (answers VNull)
                          sample_content (lit "constructor")
                          (Some (lit "List the controls.")) start))))
  = [[lit "List the controls." ++ [LF; LF] ++ lit "Document content:" ++ [LF]
        ++ sample_content]].
Proof.
  change (analyzeWithOpenAI all_keys (answers VNull))
    with (adapter all_keys (answers VNull) OpenAI).
  rewrite (custom_prompt_is_sent_verbatim all_keys (answers VNull) OpenAI
             sample_content (lit "constructor") (lit "List the controls.")
             start).
  - vm_compute. reflexivity.
  - vm_compute. discriminate.
Defined.

Lemma own_absent k :
  ~ In k (List.map lit ["security-review"; "policy-analysis";
                        "compliance-check"; "general"]) ->
  own ANALYSIS_PROMPTS k = None.
Proof.
  intros H. unfold ANALYSIS_PROMPTS. cbn [own List.map In] in *.
  repeat match goal with
    | |- context [str_eqb ?a k] =>
        rewrite (str_eqb_neq a k) by (intros E; apply H; rewrite E; tauto)
    end.
  reflexivity.
Qed.

Lemma not_inherited k :
  ~ In k (List.map lit ["constructor"; "__proto__"; "toString";
                        "toLocaleString"; "valueOf"; "hasOwnProperty";
                        "isPrototypeOf"; "propertyIsEnumerable";
                        "__defineGetter__"; "__defineSetter__";
                        "__lookupGetter__"; "__lookupSetter__"]) ->
  Object_prototype k = VUndefined.
Proof.
  intros H. unfold Object_prototype. cbn [List.map In existsb] in *.
  repeat match goal with
    | |- context [str_eqb k ?a] =>
        rewrite (str_eqb_neq k a) by (intros E; apply H; rewrite E; tauto)
    end.
  reflexivity.
Qed.

(** X9: without a custom prompt (absent or empty), each of the four
    analysis types of the table selects its own instruction block, and an
    analysis type that is neither one of them nor the name of a property of
    [Object.prototype] selects the general instruction. *)
Theorem table_selects_the_block :
  forall (customPrompt : option jsstring),
    customPrompt = None \/ customPrompt = Some [] ->
    prompt_of (lit "security-review") customPrompt = VStr security_review_prompt
    /\ prompt_of (lit "policy-analysis") customPrompt = VStr policy_analysis_prompt
    /\ prompt_of (lit "compliance-check") customPrompt
       = VStr compliance_check_prompt
    /\ prompt_of (lit "general") customPrompt = VStr general_prompt
    /\ (forall analysisType,
           ~ In analysisType
               (List.map lit ["security-review"; "policy-analysis";
                              "compliance-check"; "general"]) ->
           ~ In analysisType
               (List.map lit ["constructor"; "__proto__"; "toString";
                              "toLocaleString"; "valueOf"; "hasOwnProperty";
                              "isPrototypeOf"; "propertyIsEnumerable";
                              "__defineGetter__"; "__defineSetter__";
                              "__lookupGetter__"; "__lookupSetter__"]) ->
           prompt_of analysisType customPrompt = VStr general_prompt).
Proof.
  intros customPrompt Hc.
  repeat split;
    try (apply (prompt_of_known _ _ _ Hc); vm_compute; reflexivity).
  intros analysisType Hkey Hname.
  apply (prompt_of_unknown _ _ Hc); [apply own_absent|apply not_inherited];
    assumption.
Qed.

Lemma table_selects_the_block_witness :
  prompt_of (lit "policy-analysis") (Some []) = VStr policy_analysis_prompt
  /\ prompt_of (lit "risk-review") (Some []) = VStr general_prompt.
Proof.
  destruct (table_selects_the_block (Some []) (or_intror eq_refl))
    as (_ & H2 & _ & _ & H5).
  split; [exact H2|]. apply H5.
  - vm_compute. intuition discriminate.
  - vm_compute. intuition discriminate.
Defined.

(* ===================================================================== *)
(** ** Facts about trimming, splitting and cleaning *)
(* ===================================================================== *)

Lemma trimStart_In c s : In c (trimStart s) -> In c s.
Proof.
  induction s as [|x s IH]; cbn [trimStart]; [auto|].
  destruct (isWhiteSpace x); cbn [In]; auto.
Qed.

Lemma trim_In c s : In c (trim s) -> In c s.
Proof.
  unfold trim, trimEnd. intros H.
  apply in_rev, trimStart_In, in_rev, trimStart_In in H. exact H.
Qed.

Lemma trimStart_app_stop u c v :
  isWhiteSpace c = false ->
  trimStart (u ++ c :: v) = trimStart u ++ c :: v.
Proof.
  intros Hc. induction u as [|x u IH]; cbn [trimStart app].
  - rewrite Hc. reflexivity.
  - destruct (isWhiteSpace x); [exact IH|reflexivity].
Qed.

Lemma trimStart_length s : length (trimStart s) <= length s.
Proof.
  induction s as [|x s IH]; cbn [trimStart]; [lia|].
  destruct (isWhiteSpace x); cbn [length]; lia.
Qed.

Lemma trimStart_fixed_head c r :
  trimStart (c :: r) = c :: r -> isWhiteSpace c = false.
Proof.
  cbn [trimStart]. destruct (isWhiteSpace c); [|reflexivity].
  intros H. pose proof (trimStart_length r) as Hl. rewrite H in Hl.
  cbn [length] in Hl. lia.
Qed.

Lemma trimStart_idem s : trimStart (trimStart s) = trimStart s.
Proof.
  induction s as [|x s IH]; cbn [trimStart]; [reflexivity|].
  destruct (isWhiteSpace x) eqn:E; [exact IH|].
  cbn [trimStart]. rewrite E. reflexivity.
Qed.

Lemma trimEnd_keeps_start t :
  trimStart t = t -> trimStart (trimEnd t) = trimEnd t.
Proof.
  destruct t as [|c r]; [reflexivity|]. intros H.
  apply trimStart_fixed_head in H. unfold trimEnd. cbn [rev].
  rewrite (trimStart_app_stop _ c [] H), rev_app_distr. cbn [rev app trimStart].
  rewrite H. reflexivity.
Qed.

Lemma trimEnd_idem t : trimEnd (trimEnd t) = trimEnd t.
Proof.
  unfold trimEnd. rewrite rev_involutive, trimStart_idem. reflexivity.
Qed.

(** Trimming what is trimmed changes nothing. *)
Lemma trim_idem s : trim (trim s) = trim s.
Proof.
  unfold trim. rewrite trimEnd_keeps_start by apply trimStart_idem.
  apply trimEnd_idem.
Qed.

Lemma split_without sep s :
  ~ In sep s -> split sep s = [s].
Proof.
  induction s as [|c s IH]; cbn [split In]; [reflexivity|].
  intros H. destruct (N.eqb c sep) eqn:E.
  - apply N.eqb_eq in E. tauto.
  - rewrite IH by tauto. reflexivity.
Qed.

Lemma split_length sep s :
  length (split sep s) = S (length (List.filter (N.eqb sep) s)).
Proof.
  induction s as [|c s IH]; cbn [split List.filter]; [reflexivity|].
  rewrite (N.eqb_sym sep c). destruct (N.eqb c sep); cbn [length].
  - rewrite IH. reflexivity.
  - destruct (split sep s); cbn [length] in *; lia.
Qed.

(** The last piece of a split holds no separator and ends the string. *)
Lemma split_last sep s :
  exists raw,
    last (split sep s) = Some raw
    /\ ~ In sep raw
    /\ (s = raw \/ exists stem, s = stem ++ sep :: raw).
Proof.
  induction s as [|c s (raw & Hlast & Hno & Hs)]; cbn [split].
  - exists []. cbn. auto.
  - destruct (N.eqb c sep) eqn:E.
    + apply N.eqb_eq in E. subst c. exists raw.
      split; [destruct (split sep s); [discriminate Hlast|exact Hlast]|].
      split; [exact Hno|]. right. destruct Hs as [->|[stem ->]].
      * exists []. reflexivity.
      * exists (sep :: stem). reflexivity.
    + apply N.eqb_neq in E.
      destruct (split sep s) as [|piece pieces] eqn:Hsp; [discriminate Hlast|].
      destruct pieces as [|piece' pieces].
      * cbn in Hlast. injection Hlast as ->. exists (c :: raw).
        split; [reflexivity|]. split; [cbn [In]; intros [H|H]; auto|].
        destruct Hs as [->|[stem ->]]; [left; reflexivity|].
        exfalso. assert (Hin : In sep (stem ++ sep :: raw))
          by (apply in_or_app; right; left; reflexivity).
        pose proof (split_length sep (stem ++ sep :: raw)) as Hl.
        rewrite Hsp in Hl. cbn [length] in Hl.
        assert (Hf : In sep (List.filter (N.eqb sep) (stem ++ sep :: raw)))
          by (apply filter_In; split; [exact Hin|apply N.eqb_refl]).
        destruct (List.filter (N.eqb sep) (stem ++ sep :: raw));
          [contradiction|cbn [length] in Hl; lia].
      * exists raw. split; [exact Hlast|]. split; [exact Hno|].
        right. destruct Hs as [->|[stem ->]].
        -- exfalso. rewrite split_without in Hsp by exact Hno. discriminate Hsp.
        -- exists (c :: stem). reflexivity.
Qed.

Lemma collapse_whitespace_spaces b s c :
  In c (collapse_whitespace b s) -> isWhiteSpace c = true -> c = 0x20%N.
Proof.
  revert b. induction s as [|x s IH]; intros b; cbn [collapse_whitespace];
    [contradiction|].
  destruct (isWhiteSpace x) eqn:E.
  - destruct b; cbn [In]; eauto. intros [<-|H]; eauto.
  - cbn [In]. intros [<-|H] Hc; [congruence|eauto].
Qed.

Lemma squeeze_without_LF s :
  ~ In LF s -> squeeze_blank_lines 0 s = s.
Proof.
  induction s as [|c s IH]; cbn [squeeze_blank_lines In]; [reflexivity|].
  intros H. destruct (N.eqb c LF) eqn:E.
  - apply N.eqb_eq in E. subst c. tauto.
  - rewrite IH by tauto. reflexivity.
Qed.

Lemma collapse_whitespace_no_LF b s : ~ In LF (collapse_whitespace b s).
Proof.
  intros H. apply collapse_whitespace_spaces in H; [discriminate H|reflexivity].
Qed.

(* ===================================================================== *)
(** ** Properties of the document processor *)
(* ===================================================================== *)

Lemma squeeze_collapsed text :
  squeeze_blank_lines 0 (collapse_whitespace false text)
  = collapse_whitespace false text.
Proof. apply squeeze_without_LF, collapse_whitespace_no_LF. Qed.

Lemma cleanExtractedText_spec text :
  cleanExtractedText text
  = trim (strip_control (collapse_whitespace false text)).
Proof.
  unfold cleanExtractedText. rewrite squeeze_collapsed.
  destruct text; reflexivity.
Qed.

Lemma cleanExtractedText_In c text :
  In c (cleanExtractedText text) ->
  isControl c = false /\ (isWhiteSpace c = true -> c = 0x20%N).
Proof.
  rewrite cleanExtractedText_spec.
  intros H. apply trim_In in H. unfold strip_control in H.
  apply filter_In in H as [H Hc]. split.
  - destruct (isControl c); [discriminate Hc|reflexivity].
  - eapply collapse_whitespace_spaces, H.
Qed.

Lemma cleanExtractedText_no_LF text : ~ In LF (cleanExtractedText text).
Proof.
  intros H. apply cleanExtractedText_In in H as [_ H].
  discriminate H. reflexivity.
Qed.

(** The code units that are neither whitespace nor stripped. *)
Lemma kept_trimStart keep s :
  (forall c, keep c = true -> isWhiteSpace c = false) ->
  List.filter keep (trimStart s) = List.filter keep s.
Proof.
  intros Hk. induction s as [|x s IH]; cbn [trimStart List.filter];
    [reflexivity|].
  destruct (isWhiteSpace x) eqn:E; [|reflexivity].
  rewrite IH. destruct (keep x) eqn:K; [|reflexivity].
  apply Hk in K. congruence.
Qed.

Lemma filter_rev' {A} (f : A -> bool) l :
  List.filter f (rev l) = rev (List.filter f l).
Proof.
  induction l as [|x l IH]; cbn [rev List.filter]; [reflexivity|].
  rewrite List.filter_app, IH. cbn [List.filter].
  destruct (f x); cbn [rev]; [reflexivity|]. apply app_nil_r.
Qed.

Lemma kept_trim keep s :
  (forall c, keep c = true -> isWhiteSpace c = false) ->
  List.filter keep (trim s) = List.filter keep s.
Proof.
  intros Hk. unfold trim, trimEnd.
  rewrite filter_rev', (kept_trimStart keep _ Hk), filter_rev', rev_involutive.
  apply kept_trimStart, Hk.
Qed.

Lemma kept_collapse keep b s :
  (forall c, keep c = true -> isWhiteSpace c = false) ->
  List.filter keep (collapse_whitespace b s) = List.filter keep s.
Proof.
  intros Hk. revert b.
  induction s as [|x s IH]; intros b; cbn [collapse_whitespace List.filter];
    [reflexivity|].
  assert (Hsp : keep 0x20%N = false).
  { destruct (keep 0x20%N) eqn:K; [|reflexivity]. apply Hk in K. discriminate K. }
  destruct (isWhiteSpace x) eqn:E.
  - assert (Hx : keep x = false).
    { destruct (keep x) eqn:K; [|reflexivity]. apply Hk in K. congruence. }
    rewrite Hx. destruct b; cbn [List.filter]; rewrite ?Hsp; apply IH.
  - cbn [List.filter]. rewrite IH. reflexivity.
Qed.

Lemma kept_strip keep s :
  (forall c, keep c = true -> isControl c = false) ->
  List.filter keep (strip_control s) = List.filter keep s.
Proof.
  intros Hk. unfold strip_control.
  induction s as [|x s IH]; cbn [List.filter]; [reflexivity|].
  destruct (isControl x) eqn:E; cbn [negb List.filter]; rewrite IH.
  - destruct (keep x) eqn:K; [|reflexivity]. apply Hk in K. congruence.
  - reflexivity.
Qed.

(** X10: [cleanExtractedText] gives a normal form: its result holds no
    control character of the stripped ranges, no whitespace other than the
    plain space (so no line feed, tab or no-break space), and has no
    whitespace at either end. *)
Theorem cleaned_text_is_normal :
  forall text,
    (forall c, In c (cleanExtractedText text) ->
               isControl c = false
               /\ (isWhiteSpace c = true -> c = 0x20%N))
    /\ ~ In LF (cleanExtractedText text)
    /\ trim (cleanExtractedText text) = cleanExtractedText text.
Proof.
  intros text. split; [|split].
  - intros c. apply cleanExtractedText_In.
  - apply cleanExtractedText_no_LF.
  - rewrite cleanExtractedText_spec. apply trim_idem.
Qed.

(** X11: the second replacement of [cleanExtractedText] never applies:
    once every run of whitespace is one space there is no line feed left for
    [/\n\s*\n/] to match, so paragraph breaks are not kept and the result
    is the trimmed, control-stripped, whitespace-collapsed text. *)
Theorem blank_line_rule_never_applies :
  forall text,
    squeeze_blank_lines 0 (collapse_whitespace false text)
    = collapse_whitespace false text
    /\ cleanExtractedText text
       = trim (strip_control (collapse_whitespace false text)).
Proof.
  intros text. split; [apply squeeze_collapsed|apply cleanExtractedText_spec].
Qed.

(** X12: [cleanExtractedText] only touches whitespace and control
    characters: the code units that are neither come out unchanged, all of
    them and in the same order. *)
Theorem cleaning_keeps_the_text :
  forall text,
    List.filter (fun c => negb (isWhiteSpace c) && negb (isControl c))
      (cleanExtractedText text)
    = List.filter (fun c => negb (isWhiteSpace c) && negb (isControl c)) text.
Proof.
  intros text. rewrite cleanExtractedText_spec.
  rewrite kept_trim, kept_strip, kept_collapse; [reflexivity| | |];
    intros c H; apply andb_true_iff in H as [H1 H2];
    [destruct (isWhiteSpace c)|destruct (isControl c)|destruct (isWhiteSpace c)];
    first [reflexivity|discriminate].
Qed.

Lemma existsb_str_eqb s l : existsb (str_eqb s) l = true <-> In s l.
Proof.
  rewrite existsb_exists. split.
  - intros (x & Hin & E). apply str_eqb_eq in E. subst x. exact Hin.
  - intros H. exists s. split; [exact H|apply str_eqb_refl].
Qed.

Lemma missing_name_false name :
  missing_name name = false <-> exists n, name = Some n /\ trim n <> [].
Proof.
  unfold missing_name. destruct name as [n|]; cbn [optional default].
  - pose proof (blank_guard n) as Hb.
    match goal with
    | |- ?b = false <-> _ =>
        change b with (negb (truthy (VStr n)) || (length (trim n) =? 0)%nat)
    end.
    destruct (negb (truthy (VStr n)) || (length (trim n) =? 0)%nat).
    + split; [discriminate|]. intros (n' & [= <-] & H).
      contradiction H. apply Hb. reflexivity.
    + split; [|reflexivity]. intros _. exists n. split; [reflexivity|].
      intros H. apply Hb in H. discriminate H.
  - cbn. split; [discriminate|]. intros (n & H & _). discriminate H.
Qed.

(** X13: [validateFile] returns no error exactly for a file that is
    present, is at most 50 MB (52,428,800 bytes) large, has one of the five
    allowed types and a name that is not blank; it never returns more than
    three errors, and for a missing file it returns the single error
    ['No file provided']. *)
Theorem validateFile_accepts_exactly_valid_files :
  forall file,
    (validateFile file = [] <->
       exists f,
         file = Some f
         /\ (file_size f <= 52428800)%N
         /\ In (file_mimetype f) allowedTypes
         /\ exists name, file_originalname f = Some name /\ trim name <> [])
    /\ length (validateFile file) <= 3
    /\ (file = None -> validateFile file = [lit "No file provided"]).
Proof.
  intros [f|]; cbn [validateFile].
  - change (50 * 1024 * 1024)%N with 52428800%N.
    pose proof (N.ltb_spec0 52428800 (file_size f)) as Hsize.
    pose proof (existsb_str_eqb (file_mimetype f) allowedTypes) as Htype.
    pose proof (missing_name_false (file_originalname f)) as Hname.
    destruct (52428800 <? file_size f)%N eqn:E1;
      destruct (existsb (str_eqb (file_mimetype f)) allowedTypes) eqn:E2;
      destruct (missing_name (file_originalname f)) eqn:E3;
      cbn [negb app length];
      (split; [|split; [lia|discriminate]]);
      (split; [try discriminate; intros _|]).
    + apply Nat.le_0_l || idtac.
      intros (f' & Hf & H1 & _). injection Hf as <-. inversion Hsize. lia.
    + intros (f' & Hf & H1 & _). injection Hf as <-. inversion Hsize. lia.
    + intros (f' & Hf & H1 & _). injection Hf as <-. inversion Hsize. lia.
    + intros (f' & Hf & H1 & _). injection Hf as <-. inversion Hsize. lia.
    + intros (f' & Hf & _ & _ & H3). injection Hf as <-.
      apply Hname in H3. discriminate H3.
    + exists f. split; [reflexivity|]. inversion Hsize.
      split; [lia|]. split; [apply Htype; reflexivity|apply Hname; reflexivity].
    + reflexivity.
    + intros (f' & Hf & _ & H2 & _). injection Hf as <-.
      apply Htype in H2. discriminate H2.
    + intros (f' & Hf & _ & H2 & _). injection Hf as <-.
      apply Htype in H2. discriminate H2.
  - split; [|split; [cbn; lia|reflexivity]].
    split; [discriminate|]. intros (f & H & _). discriminate H.
Qed.

(** X14: [getFileExtension] returns the lowercased end of the name after
    its last dot, which holds no dot itself; a name without a dot is
    returned whole, lowercased, and a missing or empty name gives the empty
    string. *)
Theorem extension_is_the_last_segment :
  forall toLowerCase (filename : option jsstring),
    ((filename = None \/ filename = Some []) ->
     getFileExtension toLowerCase filename = [])
    /\ (forall name,
           filename = Some name -> name <> [] ->
           exists raw,
             getFileExtension toLowerCase filename = toLowerCase raw
             /\ ~ In 46%N raw
             /\ (name = raw \/ exists stem, name = stem ++ 46%N :: raw)
             /\ (~ In 46%N name -> raw = name)).
Proof.
  intros toLowerCase filename. split.
  - intros [-> | ->]; reflexivity.
  - intros name -> Hne. unfold getFileExtension.
    destruct name as [|c name]; [contradiction|].
    cbn [optional from_option id truthy negb].
    destruct (split_last 46%N (c :: name)) as (raw & Hlast & Hno & Hs).
    exists raw. unfold jsstring in *. rewrite Hlast. cbn [from_option id].
    split; [reflexivity|]. split; [exact Hno|]. split; [exact Hs|].
    intros Hdot. destruct Hs as [->|[stem Hs]]; [reflexivity|].
    exfalso. apply Hdot. rewrite Hs. apply in_or_app. right. left. reflexivity.
Qed.

Example extensions :
  getFileExtension asciiLower (Some (lit "Policy.v2.PDF")) = lit "pdf"
  /\ getFileExtension asciiLower (Some (lit "README")) = lit "readme"
  /\ getFileExtension asciiLower (Some (lit "notes.")) = [].
Proof. repeat split; vm_compute; reflexivity. Qed.

Lemma split_whitespace_length b s :
  1 <= length (split_whitespace b s) <= S (length s).
Proof.
  revert b. induction s as [|c s IH]; intros b; cbn [split_whitespace length];
    [lia|].
  destruct (isWhiteSpace c).
  - destruct b; cbn [length]; [specialize (IH true)|specialize (IH true)]; lia.
  - specialize (IH false).
    destruct (split_whitespace false s); cbn [length] in *; lia.
Qed.

Lemma filter_sublist {A} (f : A -> bool) l : sublist (List.filter f l) l.
Proof.
  induction l as [|x l IH]; cbn [List.filter]; [constructor|].
  destruct (f x); constructor; exact IH.
Qed.

(** X15: the counts of [analyzeContent]: at least one word, line and
    minute whatever the content, the empty one included; the word count is
    at most the length plus one; the line count is one more than the number
    of line feeds; and the reading time is the word count divided by 200,
    rounded up. *)
Theorem content_counts :
  forall toLowerCase content,
    content_length (analyzeContent toLowerCase content) = length content
    /\ 1 <= wordCount (analyzeContent toLowerCase content) <= S (length content)
    /\ lineCount (analyzeContent toLowerCase content)
       = S (length (List.filter (N.eqb LF) content))
    /\ 1 <= estimatedReadingTime (analyzeContent toLowerCase content)
    /\ wordCount (analyzeContent toLowerCase content)
       <= 200 * estimatedReadingTime (analyzeContent toLowerCase content)
    /\ 200 * (estimatedReadingTime (analyzeContent toLowerCase content) - 1)
       < wordCount (analyzeContent toLowerCase content).
Proof.
  intros toLowerCase content.
  cbn [analyzeContent content_length wordCount lineCount estimatedReadingTime].
  pose proof (split_whitespace_length false content) as Hw.
  set (w := length (split_whitespace false content)) in *.
  split; [reflexivity|]. split; [exact Hw|]. split; [apply split_length|].
  pose proof (Nat.div_mod (w + 199) 200 ltac:(discriminate)) as Hd.
  pose proof (Nat.mod_upper_bound (w + 199) 200 ltac:(discriminate)) as Hm.
  lia.
Qed.

(** X16: the keywords [analyzeContent] reports are those of its list whose
    lowercase form occurs in the lowercased content, in the order of the
    list, and [hasSecurityKeywords] holds exactly when there is one. *)
Theorem reported_keywords :
  forall toLowerCase content,
    sublist (foundKeywords (analyzeContent toLowerCase content)) securityKeywords
    /\ (forall keyword,
           In keyword (foundKeywords (analyzeContent toLowerCase content)) <->
           In keyword securityKeywords
           /\ includes (toLowerCase content) (toLowerCase keyword) = true)
    /\ (hasSecurityKeywords (analyzeContent toLowerCase content) = true <->
        exists keyword,
          In keyword securityKeywords
          /\ includes (toLowerCase content) (toLowerCase keyword) = true).
Proof.
  intros toLowerCase content.
  cbn [analyzeContent foundKeywords hasSecurityKeywords].
  set (hit := fun keyword =>
                includes (toLowerCase content) (toLowerCase keyword)).
  split; [apply filter_sublist|].
  split; [intros keyword; exact (filter_In hit keyword securityKeywords)|].
  rewrite Nat.ltb_lt. split.
  - intros H.
    destruct (List.filter hit securityKeywords) as [|keyword found] eqn:E;
      [cbn [length] in H; lia|].
    exists keyword.
    apply (proj1 (filter_In hit keyword securityKeywords)).
    rewrite E. left. reflexivity.
  - intros (keyword & H).
    apply (proj2 (filter_In hit keyword securityKeywords)) in H.
    destruct (List.filter hit securityKeywords);
      [contradiction|cbn [length]; lia].
Qed.

(** X17: text that went through [cleanExtractedText], as all text
    extracted from PDF and Word files does, always counts as one line. *)
Theorem cleaned_text_is_one_line :
  forall toLowerCase text,
    lineCount (analyzeContent toLowerCase (cleanExtractedText text)) = 1.
Proof.
  intros toLowerCase text. cbn [analyzeContent lineCount].
  rewrite split_without by apply cleanExtractedText_no_LF. reflexivity.
Qed.

(* ===================================================================== *)
(** ** Properties of the text extraction *)
(* ===================================================================== *)

(** The emptiness test of the two extractions, applied to trimmed text. *)
Lemma blank_guard_trimmed raw :
  negb (truthy (VStr (trim raw))) || (length (trim raw) =? 0)%nat = true ->
  trim raw = [].
Proof.
  rewrite orb_true_iff, Nat.eqb_eq. intros [H|H].
  - destruct (trim raw); [reflexivity|discriminate H].
  - destruct (trim raw); [reflexivity|discriminate H].
Qed.

Section ExtractionFacts.

Variable pdfParse : Buffer -> Result jsstring.
Variable extractRawText : Buffer -> Result jsstring.
Variable utf8 : Buffer -> jsstring.

(** The three ways [extractFromPDF] and [extractFromWord] end. *)
Lemma extractWith_run decoder empty document short buffer st :
  extractWith decoder empty document short buffer st =
    match decoder buffer with
    | Throw e =>
        (Throw (Error (lit "Failed to extract text from " ++ lit document
                         ++ lit ": " ++ message_of e)),
         {| reads := reads st;
            trace := trace st
                       ++ [EvLog LvError (lit short ++ lit " extraction error:")
                             (DThrown e)] |})
    | Ok raw =>
        if negb (truthy (VStr (trim raw))) || (length (trim raw) =? 0)%nat
        then
          (Throw (Error (lit "Failed to extract text from " ++ lit document
                           ++ lit ": " ++ lit empty)),
           {| reads := reads st;
              trace := trace st
                         ++ [EvLog LvError (lit short ++ lit " extraction error:")
                               (DThrown (Error (lit empty)))] |})
        else
          (Ok (cleanExtractedText (trim raw)),
           {| reads := reads st;
              trace := trace st
                         ++ [EvLog LvInfo
                               (lit "Extracted "
                                  ++ decimal (Z.of_nat
                                                (length (cleanExtractedText (trim raw))))
                                  ++ lit " characters from " ++ lit document)
                               DNone] |})
    end.
Proof.
  unfold extractWith, try_catch, bind, lift, when, throw, ret, logger, emit.
  destruct (decoder buffer) as [raw|e]; [|reflexivity].
  destruct (negb (truthy (VStr (trim raw))) || (length (trim raw) =? 0)%nat);
    reflexivity.
Qed.

(** The state after the first log line of [extractText]. *)
Lemma extractText_run file st :
  extractText pdfParse extractRawText utf8 file st =
    let st1 :=
      {| reads := reads st;
         trace := trace st
                    ++ [EvLog LvInfo
                          (lit "Extracting text from "
                             ++ match file_originalname file with
                                | Some name => name
                                | None => lit "undefined"
                                end
                             ++ lit " (" ++ file_mimetype file ++ lit ")")
                          DNone] |} in
    let wrap (outcome : Result jsstring * State) :=
      match outcome with
      | (Ok text, st') => (Ok text, st')
      | (Throw e, st') =>
          (Throw (Error (lit "Failed to extract text: " ++ message_of e)),
           {| reads := reads st';
              trace := trace st'
                         ++ [EvLog LvError (lit "Text extraction error:")
                               (DThrown e)] |})
      end in
    if str_eqb (file_mimetype file) (lit "application/pdf") then
      wrap (extractFromPDF pdfParse (file_buffer file) st1)
    else if str_eqb (file_mimetype file) (lit "application/msword")
            || str_eqb (file_mimetype file)
                 (lit "application/vnd.openxmlformats-officedocument.wordprocessingml.document")
    then wrap (extractFromWord extractRawText (file_buffer file) st1)
    else if str_eqb (file_mimetype file) (lit "text/plain")
            || str_eqb (file_mimetype file) (lit "text/markdown")
    then (Ok (utf8 (file_buffer file)), st1)
    else wrap (Throw (Error (lit "Unsupported file type: "
                               ++ file_mimetype file)), st1).
Proof.
  unfold extractText, try_catch, bind, logger, emit, throw, ret. cbv zeta.
  destruct (str_eqb (file_mimetype file) (lit "application/pdf")).
  { destruct (extractFromPDF _ _ _) as [[text|e] st']; reflexivity. }
  destruct (str_eqb (file_mimetype file) (lit "application/msword")
            || str_eqb (file_mimetype file)
                 (lit "application/vnd.openxmlformats-officedocument.wordprocessingml.document")).
  { destruct (extractFromWord _ _ _) as [[text|e] st']; reflexivity. }
  destruct (str_eqb (file_mimetype file) (lit "text/plain")
            || str_eqb (file_mimetype file) (lit "text/markdown"));
    reflexivity.
Qed.

(** The types [extractText] handles are those [validateFile] allows. *)
Lemma handled_types mimetype :
  In mimetype allowedTypes <->
  str_eqb mimetype (lit "application/pdf")
  || (str_eqb mimetype (lit "application/msword")
      || str_eqb mimetype
           (lit "application/vnd.openxmlformats-officedocument.wordprocessingml.document"))
  || (str_eqb mimetype (lit "text/plain")
      || str_eqb mimetype (lit "text/markdown")) = true.
Proof.
  rewrite <- existsb_str_eqb. unfold allowedTypes. cbn [List.map existsb].
  rewrite orb_false_r, !orb_assoc. reflexivity.
Qed.

End ExtractionFacts.

(** X18: [extractText] fails with the unsupported-type message exactly for
    the types [validateFile] does not allow: the two lists of types
    agree. *)
Theorem unsupported_type_iff_not_allowed :
  forall pdfParse extractRawText utf8 (file : File) (st : State),
    ~ In (file_mimetype file) allowedTypes <->
    fst (extractText pdfParse extractRawText utf8 file st)
    = Throw (Error (lit "Failed to extract text: Unsupported file type: "
                      ++ file_mimetype file)).
Proof.
  intros pdfParse extractRawText utf8 file st.
  rewrite handled_types, extractText_run. cbv zeta.
  unfold extractFromPDF, extractFromWord. rewrite !extractWith_run.
  destruct (str_eqb (file_mimetype file) (lit "application/pdf")).
  { cbn [orb]. split; [intros H; contradiction H; reflexivity|].
    intros H. exfalso.
    destruct (pdfParse (file_buffer file)) as [raw|e];
      [destruct (negb (truthy (VStr (trim raw))) || (length (trim raw) =? 0)%nat)|];
      cbn [fst message_of] in H; try discriminate H;
      injection H as H; vm_compute in H; discriminate H. }
  destruct (str_eqb (file_mimetype file) (lit "application/msword")
            || str_eqb (file_mimetype file)
                 (lit "application/vnd.openxmlformats-officedocument.wordprocessingml.document")).
  { cbn [orb]. split; [intros H; contradiction H; reflexivity|].
    intros H. exfalso.
    destruct (extractRawText (file_buffer file)) as [raw|e];
      [destruct (negb (truthy (VStr (trim raw))) || (length (trim raw) =? 0)%nat)|];
      cbn [fst message_of] in H; try discriminate H;
      injection H as H; vm_compute in H; discriminate H. }
  destruct (str_eqb (file_mimetype file) (lit "text/plain")
            || str_eqb (file_mimetype file) (lit "text/markdown")).
  { cbn [orb fst]. split; [intros H; contradiction H; reflexivity|discriminate]. }
  cbn [orb fst message_of]. split; [reflexivity|discriminate].
Qed.

(** X19: every failure of [extractText] is an error whose message starts
    with ['Failed to extract text: ']; a failure inside the PDF or the Word
    extraction (for either Word type; a rejection of the decoder or a
    document without text) has already been wrapped once by that
    function, so its message is nested twice; a failure is one of these
    four or the unsupported-type error, and a plain-text or Markdown file
    never fails. *)
Theorem extraction_failures_are_wrapped :
  forall pdfParse extractRawText utf8 (file : File) (st : State),
    let pdf := file_mimetype file = lit "application/pdf" in
    let word :=
      file_mimetype file = lit "application/msword"
      \/ file_mimetype file
         = lit "application/vnd.openxmlformats-officedocument.wordprocessingml.document" in
    let plain :=
      file_mimetype file = lit "text/plain"
      \/ file_mimetype file = lit "text/markdown" in
    let outcome := fst (extractText pdfParse extractRawText utf8 file st) in
    (forall e, outcome = Throw e ->
       exists m, e = Error (lit "Failed to extract text: " ++ m))
    /\ (forall e,
           pdf -> pdfParse (file_buffer file) = Throw e ->
           outcome
           = Throw (Error (lit "Failed to extract text: Failed to extract text from PDF: "
                             ++ message_of e)))
    /\ (forall raw,
           pdf -> pdfParse (file_buffer file) = Ok raw -> trim raw = [] ->
           outcome
           = Throw (Error (lit "Failed to extract text: Failed to extract text from PDF: PDF appears to be empty or contains no readable text")))
    /\ (forall e,
           word -> extractRawText (file_buffer file) = Throw e ->
           outcome
           = Throw (Error (lit "Failed to extract text: Failed to extract text from Word document: "
                             ++ message_of e)))
    /\ (forall raw,
           word -> extractRawText (file_buffer file) = Ok raw ->
           trim raw = [] ->
           outcome
           = Throw (Error (lit "Failed to extract text: Failed to extract text from Word document: Word document appears to be empty or contains no readable text")))
    /\ (plain -> outcome = Ok (utf8 (file_buffer file)))
    /\ (forall e, outcome = Throw e ->
          (pdf /\ ((exists e0, pdfParse (file_buffer file) = Throw e0)
                   \/ exists raw, pdfParse (file_buffer file) = Ok raw
                                  /\ trim raw = []))
          \/ (word /\ ((exists e0, extractRawText (file_buffer file) = Throw e0)
                       \/ exists raw, extractRawText (file_buffer file) = Ok raw
                                      /\ trim raw = []))
          \/ (~ In (file_mimetype file) allowedTypes
              /\ e = Error (lit "Failed to extract text: Unsupported file type: "
                              ++ file_mimetype file))).
Proof.
  intros pdfParse extractRawText utf8 file st. cbv zeta.
  pose proof (handled_types (file_mimetype file)) as Htypes.
  rewrite extractText_run. cbv zeta.
  unfold extractFromPDF, extractFromWord. rewrite !extractWith_run.
  split; [|split; [|split; [|split; [|split; [|split]]]]].
  - intros e.
    repeat match goal with
      | |- context [if ?b then _ else _] => destruct b
      | |- context [match ?r with Ok _ => _ | Throw _ => _ end] => destruct r
      end;
      cbn [fst]; intros [= <-] || discriminate; eauto.
  - intros e -> He. rewrite He. reflexivity.
  - intros raw -> Hraw Ht. rewrite Hraw, Ht. reflexivity.
  - intros e [-> | ->] He; rewrite He; reflexivity.
  - intros raw [-> | ->] Hraw Ht; rewrite Hraw, Ht; reflexivity.
  - intros [-> | ->]; reflexivity.
  - intros e.
    destruct (str_eqb (file_mimetype file) (lit "application/pdf")) eqn:Epdf.
    { apply str_eqb_eq in Epdf. intros H. left. split; [exact Epdf|].
      pose proof (blank_guard_trimmed) as G.
      destruct (pdfParse (file_buffer file)) as [raw|e0]; [|eauto].
      right. exists raw. split; [reflexivity|].
      destruct (negb (truthy (VStr (trim raw))) || (length (trim raw) =? 0)%nat)
        eqn:Eb; [|discriminate H].
      apply G. exact Eb. }
    destruct (str_eqb (file_mimetype file) (lit "application/msword")) eqn:Edoc.
    { apply str_eqb_eq in Edoc. cbn [orb]. intros H. right. left.
      split; [left; exact Edoc|].
      pose proof (blank_guard_trimmed) as G.
      destruct (extractRawText (file_buffer file)) as [raw|e0]; [|eauto].
      right. exists raw. split; [reflexivity|].
      destruct (negb (truthy (VStr (trim raw))) || (length (trim raw) =? 0)%nat)
        eqn:Eb; [|discriminate H].
      apply G. exact Eb. }
    destruct (str_eqb (file_mimetype file)
                (lit "application/vnd.openxmlformats-officedocument.wordprocessingml.document"))
      eqn:Edocx.
    { apply str_eqb_eq in Edocx. cbn [orb]. intros H. right. left.
      split; [right; exact Edocx|].
      pose proof (blank_guard_trimmed) as G.
      destruct (extractRawText (file_buffer file)) as [raw|e0]; [|eauto].
      right. exists raw. split; [reflexivity|].
      destruct (negb (truthy (VStr (trim raw))) || (length (trim raw) =? 0)%nat)
        eqn:Eb; [|discriminate H].
      apply G. exact Eb. }
    cbn [orb] in *.
    destruct (str_eqb (file_mimetype file) (lit "text/plain")
              || str_eqb (file_mimetype file) (lit "text/markdown")) eqn:Etxt.
    { discriminate. }
    cbn [fst message_of]. intros [= <-]. right. right.
    split; [|reflexivity].
    intros Hin. apply Htypes in Hin. discriminate Hin.
Qed.

(** X20: text that [extractText] returns for a PDF or a Word file is in
    the normal form of [cleanExtractedText]: no stripped control character,
    no whitespace but plain spaces, none at either end; text of a plain-text
    or Markdown file is the decoded buffer as it is, neither cleaned nor
    checked for emptiness. *)
Theorem extracted_text_shape :
  forall pdfParse extractRawText utf8 (file : File) (st st' : State) text,
    extractText pdfParse extractRawText utf8 file st = (Ok text, st') ->
    In (file_mimetype file) allowedTypes
    /\ (In (file_mimetype file)
          (List.map lit ["application/pdf"; "application/msword";
                         "application/vnd.openxmlformats-officedocument.wordprocessingml.document"]) ->
        (forall c, In c text ->
                   isControl c = false /\ (isWhiteSpace c = true -> c = 0x20%N))
        /\ trim text = text)
    /\ (In (file_mimetype file) (List.map lit ["text/plain"; "text/markdown"]) ->
        text = utf8 (file_buffer file)).
Proof.
  intros pdfParse extractRawText utf8 file st st' text.
  rewrite handled_types, extractText_run. cbv zeta.
  unfold extractFromPDF, extractFromWord. rewrite !extractWith_run.
  assert (Hclean : forall raw,
             (forall c, In c (cleanExtractedText raw) ->
                        isControl c = false
                        /\ (isWhiteSpace c = true -> c = 0x20%N))
             /\ trim (cleanExtractedText raw) = cleanExtractedText raw).
  { intros raw. split; [intros c; apply cleanExtractedText_In|].
    rewrite cleanExtractedText_spec. apply trim_idem. }
  cbn [List.map In].
  destruct (str_eqb (file_mimetype file) (lit "application/pdf")) eqn:E1.
  { destruct (pdfParse (file_buffer file)) as [raw|e]; [|discriminate].
    destruct (negb (truthy (VStr (trim raw))) || (length (trim raw) =? 0)%nat);
      [discriminate|].
    intros [= <- _]. split; [reflexivity|]. split; [intros _; apply Hclean|].
    apply str_eqb_eq in E1. rewrite E1.
    intros [H|[H|[]]]; vm_compute in H; discriminate H. }
  destruct (str_eqb (file_mimetype file) (lit "application/msword")
            || str_eqb (file_mimetype file)
                 (lit "application/vnd.openxmlformats-officedocument.wordprocessingml.document"))
    eqn:E2.
  { destruct (extractRawText (file_buffer file)) as [raw|e]; [|discriminate].
    destruct (negb (truthy (VStr (trim raw))) || (length (trim raw) =? 0)%nat);
      [discriminate|].
    intros [= <- _]. split; [reflexivity|]. split; [intros _; apply Hclean|].
    apply orb_true_iff in E2 as [E2|E2]; apply str_eqb_eq in E2; rewrite E2;
      intros [H|[H|[]]]; vm_compute in H; discriminate H. }
  destruct (str_eqb (file_mimetype file) (lit "text/plain")
            || str_eqb (file_mimetype file) (lit "text/markdown")) eqn:E3;
    [|discriminate].
  intros [= <- _]. split; [reflexivity|]. split; [|reflexivity].
  apply orb_false_iff in E2 as [E2a E2b].
  intros [H|[H|[H|[]]]]; symmetry in H; apply str_eqb_eq in H; congruence.
Qed.

Lemma extracted_text_shape_witness :
  exists st',
    extractText sample_pdfParse sample_extractRawText sample_utf8
      (sample_file "application/pdf" []) start
    = (Ok (lit "Access control policy"), st')
    /\ trim (lit "Access control policy") = lit "Access control policy".
Proof.
  eexists ?[st'].
  assert (H : extractText sample_pdfParse sample_extractRawText sample_utf8
                (sample_file "application/pdf" []) start
              = (Ok (lit "Access control policy"), ?st'))
    by (vm_compute; reflexivity).
  split; [exact H|].
  apply (extracted_text_shape _ _ _ _ _ _ _ H).
  vm_compute. auto.
Defined.

(* ===================================================================== *)
(** ** Properties of the document processing *)
(* ===================================================================== *)

(** X21: a file that [validateFile] rejects is not processed at all:
    [processDocument] fails with the list of validation errors joined by
    commas, without reading the clock or starting an extraction; its only
    effect is the error log line. *)
Theorem invalid_file_is_not_processed :
  forall toLowerCase pdfParse extractRawText utf8 formatFileSize clock
         (file : option File) (st : State),
    validateFile file <> [] ->
    processDocument toLowerCase pdfParse extractRawText utf8 formatFileSize
      clock file st
    = (Throw (Error (lit "File validation failed: "
                       ++ join (lit ", ") (validateFile file))),
       {| reads := reads st;
          trace := trace st
                     ++ [EvLog LvError (lit "Document processing error:")
                           (DThrown (Error (lit "File validation failed: "
                                              ++ join (lit ", ")
                                                   (validateFile file))))] |}).
Proof.
  intros toLowerCase pdfParse extractRawText utf8 formatFileSize clock file st H.
  unfold processDocument, try_catch, bind, when, throw, logger, emit.
  destruct (validateFile file) as [|err errs]; [contradiction|].
  reflexivity.
Qed.

Lemma invalid_file_is_not_processed_witness :
  fst (processDocument asciiLower sample_pdfParse sample_extractRawText
         sample_utf8 sample_formatFileSize sample_clock
         (Some (sample_file "image/png" [])) start)
  = Throw (Error (lit "File validation failed: File type image/png is not supported. Allowed types: PDF, Word, Text, Markdown")).
Proof.
  rewrite (invalid_file_is_not_processed asciiLower sample_pdfParse
             sample_extractRawText sample_utf8 sample_formatFileSize
             sample_clock (Some (sample_file "image/png" [])) start).
  - vm_compute. reflexivity.
  - vm_compute. discriminate.
Defined.

(** X22: what [processDocument] returns was validated twice: the file
    passed [validateFile], and the content is not blank and has at least 50
    code units, so the content validation of [analyzeWithAI] accepts it;
    the content analysis is that of the returned content, the metadata
    those of the file, and the clock was read exactly twice. *)
Theorem processed_document_is_valid :
  forall toLowerCase pdfParse extractRawText utf8 formatFileSize clock
         (file : option File) (st st' : State) (doc : ProcessedDocument),
    processDocument toLowerCase pdfParse extractRawText utf8 formatFileSize
      clock file st = (Ok doc, st') ->
    validateFile file = []
    /\ (exists f,
           file = Some f
           /\ filename (doc_metadata doc) = file_originalname f
           /\ size (doc_metadata doc) = file_size f
           /\ mimetype (doc_metadata doc) = file_mimetype f
           /\ extension (doc_metadata doc)
              = getFileExtension toLowerCase (file_originalname f)
           /\ exists st1 st2,
                extractText pdfParse extractRawText utf8 f st1
                = (Ok (doc_content doc), st2))
    /\ trim (doc_content doc) <> []
    /\ 50 <= length (doc_content doc)
    /\ (forall s, validate (doc_content doc) s = (Ok tt, s))
    /\ contentAnalysis doc = analyzeContent toLowerCase (doc_content doc)
    /\ reads st' = S (S (reads st)).
Proof.
  intros toLowerCase pdfParse extractRawText utf8 formatFileSize clock file
    st st' doc.
  unfold processDocument, getFileMetadata, try_catch, bind, when, throw,
    logger, emit, ret, Date_now.
  destruct (validateFile file) as [|err errs] eqn:Hv; [|discriminate].
  change (0 <? length (@nil jsstring))%nat with false. cbv beta iota.
  destruct file as [f|]; [|discriminate Hv].
  cbn [reads trace].
  match goal with
  | |- context [extractText ?a ?b ?c ?d ?s] =>
      destruct (extractText a b c d s) as [[text|e] st2] eqn:Hx
  end; [|discriminate].
  pose proof (blank_guard text) as Hblank.
  pose proof (validate_run text) as Hval.
  destruct (negb (truthy (VStr text)) || (length (trim text) =? 0)%nat);
    cbv beta iota; [discriminate|].
  destruct (length text <? 50)%nat eqn:Hlen; cbv beta iota; [discriminate|].
  apply Nat.ltb_ge in Hlen.
  assert (Hreads : reads st2 = S (reads st)).
  { rewrite extractText_run in Hx. cbv zeta in Hx.
    unfold extractFromPDF, extractFromWord in Hx.
    rewrite !extractWith_run in Hx.
    repeat match type of Hx with
      | context [if ?b then _ else _] => destruct b
      | context [match ?r with Ok _ => _ | Throw _ => _ end] => destruct r
      end;
      try discriminate Hx; injection Hx as _ <-; reflexivity. }
  intros [= <- <-].
  cbn [doc_metadata doc_content contentAnalysis filename size mimetype
       extension reads].
  split; [reflexivity|].
  split; [exists f; repeat (split; [reflexivity|]); eauto|].
  split; [intros H; apply Hblank in H; discriminate H|].
  split; [exact Hlen|]. split; [exact Hval|]. split; [reflexivity|].
  rewrite Hreads. reflexivity.
Qed.

Lemma processed_document_is_valid_witness :
  exists doc st',
    processDocument asciiLower sample_pdfParse sample_extractRawText
      sample_utf8 sample_formatFileSize sample_clock
      (Some (sample_file "text/plain" sample_content)) start = (Ok doc, st')
    /\ (forall s, validate (doc_content doc) s = (Ok tt, s))
    /\ reads st' = 2.
Proof.
  eexists ?[doc], ?[st'].
  assert (H : processDocument asciiLower sample_pdfParse sample_extractRawText
                sample_utf8 sample_formatFileSize sample_clock
                (Some (sample_file "text/plain" sample_content)) start
              = (Ok ?doc, ?st'))
    by (vm_compute; reflexivity).
  split; [exact H|].
  destruct (processed_document_is_valid _ _ _ _ _ _ _ _ _ _ H)
    as (_ & _ & _ & _ & Hv & _ & Hr).
  split; [exact Hv|exact Hr].
Defined.

(* ===================================================================== *)
(** ** Properties of the database wrapper and the health check *)
(* ===================================================================== *)

Section DatabaseFacts.

Variable clock : nat -> Z.
Variable pool_query : jsstring -> JsVal -> Result QueryResult.
Variable totalCount idleCount waitingCount : N.

Lemma query_run text params st :
  query clock pool_query text params st =
    match pool_query text params with
    | Ok res =>
        (Ok res,
         {| reads := S (S (reads st));
            trace := trace st
                       ++ [EvClock (clock (reads st));
                           EvClock (clock (S (reads st)))]
                       ++ (if (1000 <? clock (S (reads st)) - clock (reads st))%Z
                           then [EvLog LvWarn
                                   (lit "Slow query detected ("
                                      ++ decimal (clock (S (reads st))
                                                  - clock (reads st))
                                      ++ lit "ms): " ++ substring text 0 100
                                      ++ lit "...") DNone]
                           else []) |})
    | Throw e =>
        (Throw e,
         {| reads := S (reads st);
            trace := trace st
                       ++ [EvClock (clock (reads st));
                           EvLog LvError (lit "Database query error:")
                             (DValue
                                (VObj [(lit "query", VStr (substring text 0 100));
                                       (lit "params", params);
                                       (lit "error", VStr (message_of e))]))] |})
    end.
Proof.
  unfold query, bind, try_catch, lift, Date_now, when, logger, emit, throw, ret.
  cbn [reads trace].
  destruct (pool_query text params) as [res|e].
  - destruct (1000 <? clock (S (reads st)) - clock (reads st))%Z;
      cbn [reads trace]; rewrite <- !app_assoc; reflexivity.
  - cbn [reads trace]. rewrite <- !app_assoc. reflexivity.
Qed.

(** The report of [healthCheck], read off the answer of the pool. *)
Lemma healthCheck_run st :
  exists st',
    healthCheck clock pool_query totalCount idleCount waitingCount st =
      (Ok match pool_query (lit "SELECT NOW() as current_time") VUndefined with
          | Throw e => Unhealthy (message_of e)
          | Ok res =>
              match rows res with
              | [] =>
                  Unhealthy
                    (lit "Cannot read properties of undefined (reading 'current_time')")
              | row :: _ =>
                  Healthy (default VUndefined (own row (lit "current_time")))
                    totalCount idleCount waitingCount
              end
          end, st').
Proof.
  unfold healthCheck, try_catch, bind, lift, ret, current_time.
  rewrite query_run.
  destruct (pool_query (lit "SELECT NOW() as current_time") VUndefined)
    as [res|e]; [|eauto].
  destruct (rows res); eauto.
Qed.

End DatabaseFacts.


(** X24: the database health check never fails: a rejected query, or an
    answer without rows, becomes the report with status ['unhealthy']
    carrying the message of the cause, and any answer with a row the report
    with status ['healthy'] carrying the counters of the pool. *)
Theorem database_health_check_never_fails :
  forall clock pool_query totalCount idleCount waitingCount (st : State),
    exists report st',
      healthCheck clock pool_query totalCount idleCount waitingCount st
      = (Ok report, st')
      /\ match pool_query (lit "SELECT NOW() as current_time") VUndefined with
         | Throw e => report = Unhealthy (message_of e)
         | Ok res =>
             match rows res with
             | [] =>
                 report
                 = Unhealthy
                     (lit "Cannot read properties of undefined (reading 'current_time')")
             | row :: _ =>
                 report
                 = Healthy (default VUndefined (own row (lit "current_time")))
                     totalCount idleCount waitingCount
             end
         end.
Proof.
  intros clock pool_query totalCount idleCount waitingCount st.
  destruct (healthCheck_run clock pool_query totalCount idleCount waitingCount st)
    as [st' H].
  eexists _, st'. split; [exact H|].
  destruct (pool_query (lit "SELECT NOW() as current_time") VUndefined)
    as [res|e]; [|reflexivity].
  destruct (rows res); reflexivity.
Qed.

(** X25: the health route always answers with its report, never through
    its outer [catch]; the code is 503 with status ['unhealthy'] exactly
    when the database report is unhealthy, and 200 otherwise, with status
    ['healthy'] when at least one provider credential is configured and
    status ['degraded'] with the warning ['No AI services configured'] when
    none is; each provider is listed as ['available'] exactly when its
    credential is configured. The three labels are assumed to be their own
    lowercase form. *)
Theorem health_route_status :
  forall toLowerCase env clock pool_query totalCount idleCount waitingCount
         uptime system (st : State),
    toLowerCase (lit "claude") = lit "claude" ->
    toLowerCase (lit "openai") = lit "openai" ->
    toLowerCase (lit "gemini") = lit "gemini" ->
    exists code body st',
      healthRoute toLowerCase env clock pool_query totalCount idleCount
        waitingCount uptime system st = (Ok (Report code body), st')
      /\ ai_claude (h_ai_providers body)
         = (if truthy (process_env env "CLAUDE_API_KEY")
            then lit "available" else lit "not configured")
      /\ ai_openai (h_ai_providers body)
         = (if truthy (process_env env "OPENAI_API_KEY")
            then lit "available" else lit "not configured")
      /\ ai_gemini (h_ai_providers body)
         = (if truthy (process_env env "GEMINI_API_KEY")
            then lit "available" else lit "not configured")
      /\ match h_database body with
         | Unhealthy _ =>
             code = 503%Z /\ h_status body = lit "unhealthy"
             /\ h_warning body = None
         | Healthy _ _ _ _ =>
             code = 200%Z
             /\ if truthy (process_env env "CLAUDE_API_KEY")
                   || truthy (process_env env "OPENAI_API_KEY")
                   || truthy (process_env env "GEMINI_API_KEY")
                then h_status body = lit "healthy" /\ h_warning body = None
                else h_status body = lit "degraded"
                     /\ h_warning body = Some (lit "No AI services configured")
         end.
Proof.
  intros toLowerCase env clock pool_query totalCount idleCount waitingCount
    uptime system st H1 H2 H3.
  unfold healthRoute, try_catch, bind, Date_now, ret, availability.
  cbn [reads trace].
  match goal with
  | |- context [healthCheck ?c ?q ?t ?i ?w ?s] =>
      destruct (healthCheck_run c q t i w s) as [st' ->]
  end.
  rewrite (check_selected toLowerCase env Claude (lit "claude") H1).
  rewrite (check_selected toLowerCase env OpenAI (lit "openai") H2).
  rewrite (check_selected toLowerCase env Gemini (lit "gemini") H3).
  cbn [credential].
  match goal with
  | |- context [db_status ?d] => generalize d
  end.
  intros database.
  destruct database as [now cc ic wc|message]; cbn [db_status];
    destruct (truthy (process_env env "CLAUDE_API_KEY"));
    destruct (truthy (process_env env "OPENAI_API_KEY"));
    destruct (truthy (process_env env "GEMINI_API_KEY"));
    repeat match goal with
      | |- context [str_eqb (lit ?a) (lit ?b)] =>
          let v := eval vm_compute in (str_eqb (lit a) (lit b)) in
          change (str_eqb (lit a) (lit b)) with v
      end;
    cbn [List.filter length Nat.eqb orb];
    repeat match goal with
      | |- context [str_eqb (lit ?a) (lit ?b)] =>
          let v := eval vm_compute in (str_eqb (lit a) (lit b)) in
          change (str_eqb (lit a) (lit b)) with v
      end;
    cbv iota;
    eexists _, _, _; (split; [reflexivity|]);
    cbn [h_ai_providers ai_claude ai_openai ai_gemini h_database h_status
         h_warning]; repeat split; reflexivity.
Qed.

Lemma health_route_status_witness :
  exists body st',
    healthRoute asciiLower (delete "OPENAI_API_KEY" all_keys) sample_clock
      sample_pool 3 2 0 (VNum 12) VNull start = (Ok (Report 200 body), st')
    /\ h_status body = lit "healthy"
    /\ ai_openai (h_ai_providers body) = lit "not configured".
Proof.
  destruct (health_route_status asciiLower (delete "OPENAI_API_KEY" all_keys)
              sample_clock sample_pool 3 2 0 (VNum 12) VNull start)
    as (code & body & st' & H & _ & Hopenai & _ & Hdb).
  - vm_compute. reflexivity.
  - vm_compute. reflexivity.
  - vm_compute. reflexivity.
  - assert (Hrun : exists b s,
               healthRoute asciiLower (delete "OPENAI_API_KEY" all_keys)
                 sample_clock sample_pool 3 2 0 (VNum 12) VNull start
               = (Ok (Report 200 b), s)
               /\ h_database b
                  = Healthy (VStr (lit "2024-05-01T10:00:00.000Z")) 3 2 0)
      by (eexists _, _; split; vm_compute; reflexivity).
    destruct Hrun as (b & s & Hrun & Hb). rewrite Hrun in H.
    injection H as <- <- <-. exists b, s. split; [exact Hrun|].
    rewrite Hb in Hdb. destruct Hdb as [_ Hdb].
    split; [exact (proj1 Hdb)|exact Hopenai].
Defined.

(* ===================================================================== *)
(** ** Facts about the upload route *)
(* ===================================================================== *)

(** The [catch] block of the route always answers. *)
Lemma upload_failure_run e st :
  upload_failure e st =
    (Ok (if includes (message_of e) (lit "Invalid file type")
         then (400%Z, InvalidFileType (message_of e))
         else if includes (message_of e) (lit "AI service")
         then (503%Z, AIServiceUnavailable)
         else (500%Z, ProcessingFailed)),
     {| reads := reads st;
        trace := trace st
                   ++ [EvLog LvError (lit "Document upload/analysis error:")
                         (DThrown e)] |}).
Proof.
  unfold upload_failure, bind, logger, emit, ret. cbn [reads trace].
  repeat destruct (includes _ _); reflexivity.
Qed.

(** A sequence that ends well went well at its first step. *)
Lemma bind_Ok {A B} (m : M A) (k : A -> M B) st b st' :
  bind m k st = (Ok b, st') ->
  exists a st1, m st = (Ok a, st1) /\ k a st1 = (Ok b, st').
Proof.
  unfold bind. destruct (m st) as [[a|e] st1]; [eauto|discriminate].
Qed.

Section UploadFacts.

Variable toLowerCase : jsstring -> jsstring.
Variable env : gmap string jsstring.
Variable clock : nat -> Z.
Variable transport : Request -> JsVal + AxiosFailure.
Variable pdfParse : Buffer -> Result jsstring.
Variable extractRawText : Buffer -> Result jsstring.
Variable utf8 : Buffer -> jsstring.
Variable pool_query : jsstring -> JsVal -> Result QueryResult.
Variable stringify : AnalysisResult -> jsstring.



End UploadFacts.

(** X26: the handler of [POST /upload] always answers: whatever the
    request, the decoders, the database and the provider do, no exception
    leaves it, the status is 200, 400, 500 or 503, and it is 200 exactly
    when the body is the analysed document. *)
Theorem upload_always_answers
    (toLowerCase : jsstring -> jsstring) (env : gmap string jsstring)
    (clock : nat -> Z) (transport : Request -> JsVal + AxiosFailure)
    (pdfParse extractRawText : Buffer -> Result jsstring)
    (utf8 : Buffer -> jsstring)
    (pool_query : jsstring -> JsVal -> Result QueryResult)
    (stringify : AnalysisResult -> jsstring)
    (validationErrors : list JsVal) (file : option File) (userId : JsVal)
    (aiProvider : jsstring) (analysisType customPrompt : option jsstring)
    (st : State) :
  exists code body st',
    upload toLowerCase env clock transport pdfParse extractRawText utf8
      pool_query stringify validationErrors file userId aiProvider
      analysisType customPrompt st = (Ok (code, body), st')
    /\ (code = 200 \/ code = 400 \/ code = 500 \/ code = 503)%Z
    /\ (code = 200%Z <->
        match body with
        | DocumentAnalyzed _ _ _ _ _ _ _ => True
        | _ => False
        end).
Proof.
  unfold upload, try_catch.
  match goal with
  | |- context [match ?m st with _ => _ end] =>
      destruct (m st) as [[[code body]|e] st'] eqn:Hbody
  end.
  - exists code, body, st'. split; [reflexivity|].
    assert (H : (code = 200%Z
                 /\ match body with
                    | DocumentAnalyzed _ _ _ _ _ _ _ => True
                    | _ => False
                    end)
                \/ (code = 400%Z
                    /\ match body with
                       | DocumentAnalyzed _ _ _ _ _ _ _ => False
                       | _ => True
                       end)).
    { destruct (0 <? length validationErrors)%nat.
      { injection Hbody as <- <- _. right. split; [reflexivity|exact I]. }
      destruct file as [file|].
      2:{ injection Hbody as <- <- _. right. split; [reflexivity|exact I]. }
      apply bind_Ok in Hbody as (user & s1 & _ & Hbody).
      apply bind_Ok in Hbody as (name & s2 & _ & Hbody).
      apply bind_Ok in Hbody as (u & s3 & _ & Hbody).
      apply bind_Ok in Hbody as (text & s4 & _ & Hbody).
      destruct (negb (truthy (VStr text)) || (length (trim text) =? 0)%nat).
      { injection Hbody as <- <- _. right. split; [reflexivity|exact I]. }
      apply bind_Ok in Hbody as (stored & s5 & _ & Hbody).
      apply bind_Ok in Hbody as (documentId & s6 & _ & Hbody).
      apply bind_Ok in Hbody as (analysis & s7 & _ & Hbody).
      apply bind_Ok in Hbody as (saved & s8 & _ & Hbody).
      apply bind_Ok in Hbody as (user' & s9 & _ & Hbody).
      apply bind_Ok in Hbody as (document & s10 & _ & Hbody).
      apply bind_Ok in Hbody as (u' & s11 & _ & Hbody).
      injection Hbody as <- <- _. left. split; [reflexivity|exact I]. }
    destruct H as [[-> H]|[-> H]].
    + split; [auto|]. split; [intros _; exact H|reflexivity].
    + split; [auto|]. split; [discriminate|].
      destruct body; try contradiction; exact (fun F => match F with end).
  - rewrite upload_failure_run.
    destruct (includes (message_of e) (lit "Invalid file type"));
      [|destruct (includes (message_of e) (lit "AI service"))];
      (eexists _, _, _; split; [reflexivity|]);
      (split; [auto|]); (split; [discriminate|contradiction]).
Qed.


